(** * AirGuard sentinel watch: the detection engine of [src/main.py]

    A shallow embedding of the [WiFiIDS] class: the bounded packet window
    ([collections.deque] with [maxlen]), the three rule detectors, the
    feature extraction and the one-shot training of the anomaly scorer.

    Conventions of the embedding
    - Python [float] values (timestamps, confidences, features) are
      rationals [Q]; [int] values are [Z]; [Optional[int]] is [option Z].
    - [time.time()] is a read of a clock: the [k]-th read of a run returns
      [clk k], and every function that reads the clock threads the number of
      reads done so far (the [IO] monad below).
    - A Python [set] of ints or strings is a [gset]; [len] of it is [size].
    - A [dict] whose iteration order is observed ([ip_groups]) is an
      association list in insertion order.
    - scikit-learn is outside the repository: its four entry points are
      section variables, and every call to them is recorded in a trace. *)

From Stdlib Require Import QArith Qabs Sorting.Sorted Lqa.
From stdpp Require Import base list strings gmap sets fin_sets pretty sorting.

Local Open Scope Z_scope.

(** ** Data model *)

(** [@dataclass class NetworkPacket] *)
Record NetworkPacket := {
  timestamp : Q;
  src_ip : string;
  dst_ip : string;
  protocol : string;
  length : Z;
  src_port : option Z;
  dst_port : option Z;
  flags : option string
}.

(** [@dataclass class ThreatAlert] *)
Record ThreatAlert := {
  alert_timestamp : Q;
  threat_type : string;
  severity : string;
  source_ip : string;
  description : string;
  confidence : Q
}.

(** ** Python primitives used by the engine *)

(** [a < b] on floats. *)
Definition Qltb (a b : Q) : bool :=
  match (a ?= b)%Q with Lt => true | _ => false end.

(** Truthiness of an [Optional[int]]: [None] and [0] are falsy. *)
Definition truthy (o : option Z) : bool :=
  match o with
  | None => false
  | Some v => negb (v =? 0)
  end.

(** [max(a, b)] with two arguments: the first is kept unless the second is
    strictly greater. *)
Definition py_max2 (a b : Q) : Q := if Qltb a b then b else a.

(** [max(iterable)]: the running maximum is replaced by a strictly greater
    item.  The empty iterable raises [ValueError] ([None]). *)
Definition py_max (l : list Q) : option Q :=
  match l with
  | [] => None
  | x :: l' => Some (fold_left (fun m y => if Qltb m y then y else m) l' x)
  end.

(** [min(iterable)]. *)
Definition py_min (l : list Q) : option Q :=
  match l with
  | [] => None
  | x :: l' => Some (fold_left (fun m y => if Qltb y m then y else m) l' x)
  end.

(** [sum(iterable)] over ints. *)
Definition py_sum (l : list Z) : Z := fold_left Z.add l 0.

(** [len(l)] as a Python int. *)
Definition len {A} (l : list A) : Z := Z.of_nat (List.length l).

(** ** The rolling window: [deque(maxlen=...)] *)

Record Deque := {
  dq_maxlen : nat;
  dq_items : list NetworkPacket   (* left end first *)
}.

(** [deque.append(x)]: the item is put at the right end, then the deque is
    trimmed from the left while it is longer than [maxlen]. *)
Definition deque_append (d : Deque) (x : NetworkPacket) : Deque :=
  let items := dq_items d ++ [x] in
  {| dq_maxlen := dq_maxlen d;
     dq_items := if (dq_maxlen d <? List.length items)%nat
                 then tail items else items |}.

(** ** The clock *)

Definition IO (A : Type) : Type := nat -> A * nat.

Definition ret {A} (a : A) : IO A := fun k => (a, k).

Definition bind {A B} (m : IO A) (f : A -> IO B) : IO B :=
  fun k => let (a, k') := m k in f a k'.

Notation "'let*' x ':=' m 'in' f" := (bind m (fun x => f))
  (at level 10, x name, m at level 100, f at level 200).

Definition run {A} (m : IO A) (k : nat) : A := fst (m k).

(** [l[idx]] on a Python list: a negative index counts from the right end;
    out of range raises [IndexError] ([None]). *)
Definition py_index {A} (l : list A) (idx : Z) : option A :=
  if idx <? 0
  then (if len l + idx <? 0 then None else l !! Z.to_nat (len l + idx))
  else l !! Z.to_nat idx.

(** ** What scapy hands to [packet_callback] *)

Inductive Layer4 :=
  | L4_TCP (sport dport : Z) (tcp_flags : string)
  | L4_UDP (sport dport : Z)
  | L4_ICMP
  | L4_ARP
  | L4_OTHER.

Record ScapyPacket := {
  ip_layer : option (string * string);   (* [packet[IP].src], [.dst] *)
  layer4 : Layer4;
  wire_len : Z                           (* [len(packet)] *)
}.

(** [WiFiIDS.get_protocol] *)
Definition get_protocol (packet : ScapyPacket) : string :=
  match layer4 packet with
  | L4_TCP _ _ _ => "TCP"
  | L4_UDP _ _ => "UDP"
  | L4_ICMP => "ICMP"
  | L4_ARP => "ARP"
  | L4_OTHER => "OTHER"
  end.

(** ** Feature extraction (no clock, no learned state) *)

(** [ip_groups[packet.src_ip].append(packet)] on a [defaultdict(list)]: an
    existing key keeps its place, a new key goes last. *)
Fixpoint group_add (groups : list (string * list NetworkPacket))
    (packet : NetworkPacket) : list (string * list NetworkPacket) :=
  match groups with
  | [] => [(src_ip packet, [packet])]
  | (ip, packets) :: rest =>
      if String.eqb ip (src_ip packet)
      then (ip, packets ++ [packet]) :: rest
      else (ip, packets) :: group_add rest packet
  end.

Definition ip_groups (buffer : list NetworkPacket)
    : list (string * list NetworkPacket) :=
  fold_left group_add buffer [].

(** [p.dst_port for p in packets if p.dst_port] *)
Definition truthy_ports (packets : list NetworkPacket) : list Z :=
  omap (fun p => if truthy (dst_port p) then dst_port p else None) packets.

(** The four features of one group, in the order of the source.  [None]
    stands for the exception of [max]/[min] on an empty group, which the
    [len(packets) < 5] test excludes. *)
Definition group_features (packets : list NetworkPacket) : option (list Q) :=
  match py_max (map timestamp packets), py_min (map timestamp packets) with
  | Some hi, Some lo =>
      let packet_rate := (inject_Z (len packets) / py_max2 1 (hi - lo))%Q in
      let avg_packet_size :=
        (inject_Z (py_sum (map length packets)) / inject_Z (len packets))%Q in
      let unique_ports :=
        size (list_to_set (truthy_ports packets) : gset Z) in
      let protocol_diversity :=
        size (list_to_set (map protocol packets) : gset string) in
      Some [packet_rate; avg_packet_size;
            inject_Z (Z.of_nat unique_ports);
            inject_Z (Z.of_nat protocol_diversity)]
  | _, _ => None
  end.

(** The loop over [ip_groups.items()]. *)
Fixpoint features_loop (groups : list (string * list NetworkPacket))
    (features : list (list Q)) : option (list (list Q)) :=
  match groups with
  | [] => Some features
  | (ip, packets) :: rest =>
      if len packets <? 5 then features_loop rest features
      else match group_features packets with
           | Some v => features_loop rest (features ++ [v])
           | None => None
           end
  end.

(** [WiFiIDS.extract_features] *)
Definition extract_features (buffer : Deque) : option (list (list Q)) :=
  features_loop (ip_groups (dq_items buffer)) [].

(** ** The engine *)

(** Calls into scikit-learn, in the order they are made. *)
Inductive SkCall :=
  | ScalerFitTransform (X : list (list Q))
  | ForestFit (X : list (list Q))
  | ForestPredict (X : list (list Q))
  | ForestDecisionFunction (X : list (list Q)).

Section Engine.

(** The clock behind [time.time()]. *)
Variable clk : nat -> Q.

(** scikit-learn: [StandardScaler.fit_transform], and
    [IsolationForest.fit], [.predict], [.decision_function].  [Fitted] is
    what [fit] leaves in the estimator (its [offset_] and trees). *)
Variable Fitted : Type.
Variable scaler_fit_transform : list (list Q) -> list (list Q).
Variable forest_fit : list (list Q) -> Fitted.
Variable forest_predict : Fitted -> list (list Q) -> list Z.
Variable forest_decision_function : Fitted -> list (list Q) -> list Q.

(** [time.time()] *)
Definition time_time : IO Q := fun k => (clk k, S k).

(** The fields of [WiFiIDS] the detection engine uses.  [ml_model] is
    [None] while the estimator has no [offset_] attribute. *)
Record WiFiIDS := {
  packet_buffer : Deque;
  connection_tracker : gmap string Z;
  suspicious_ips : gset string;
  threat_alerts : list ThreatAlert;
  ml_model : option Fitted;
  sk_calls : list SkCall
}.

(** [WiFiIDS.__init__] with [PACKET_BUFFER_SIZE = size]. *)
Definition init (size : nat) : WiFiIDS :=
  {| packet_buffer := {| dq_maxlen := size; dq_items := [] |};
     connection_tracker := ∅;
     suspicious_ips := ∅;
     threat_alerts := [];
     ml_model := None;
     sk_calls := [] |}.

(** [WiFiIDS.create_threat_alert]; the database row, the log line and the
    (empty) response are outside the engine. *)
Definition create_threat_alert (self : WiFiIDS)
    (threat_type severity source_ip description : string) (confidence : Q)
    : IO WiFiIDS :=
  let* now := time_time in
  let alert := {| alert_timestamp := now;
                  threat_type := threat_type;
                  severity := severity;
                  source_ip := source_ip;
                  description := description;
                  confidence := confidence |} in
  ret {| packet_buffer := packet_buffer self;
         connection_tracker := connection_tracker self;
         suspicious_ips := {[ source_ip ]} ∪ suspicious_ips self;
         threat_alerts := threat_alerts self ++ [alert];
         ml_model := ml_model self;
         sk_calls := sk_calls self |}.

(** [[p for p in buffer if p.src_ip == ip and time.time() - p.timestamp < w]]:
    the clock is read once for every record of that source, and for no
    other record ([and] short-circuits). *)
Fixpoint recent_packets (w : Q) (ip : string) (buffer : list NetworkPacket)
    : IO (list NetworkPacket) :=
  match buffer with
  | [] => ret []
  | p :: rest =>
      if String.eqb (src_ip p) ip then
        let* now := time_time in
        let* tl := recent_packets w ip rest in
        ret (if Qltb (now - timestamp p) w then p :: tl else tl)
      else recent_packets w ip rest
  end.

(** [WiFiIDS.detect_port_scan] *)
Definition detect_port_scan (self : WiFiIDS) (packet : NetworkPacket)
    : IO bool :=
  if negb (truthy (dst_port packet)) then ret false
  else
    let* recent := recent_packets 60 (src_ip packet)
                     (dq_items (packet_buffer self)) in
    let unique_ports : gset Z := list_to_set (truthy_ports recent) in
    ret (20 <? size unique_ports)%nat.

(** [suspicious_ports] of [detect_suspicious_port] *)
Definition suspicious_ports : gset Z :=
  {[ 22; 23; 135; 139; 445; 1433; 3389; 5432; 5900; 6379 ]}.

(** [WiFiIDS.detect_suspicious_port]: [None in suspicious_ports] is
    [False]. *)
Definition detect_suspicious_port (self : WiFiIDS) (packet : NetworkPacket)
    : bool :=
  match dst_port packet with
  | None => false
  | Some port => bool_decide (port ∈ suspicious_ports)
  end.

(** [WiFiIDS.detect_ddos] *)
Definition detect_ddos (self : WiFiIDS) (packet : NetworkPacket) : IO bool :=
  let* recent := recent_packets 10 (src_ip packet)
                   (dq_items (packet_buffer self)) in
  let recent_count := py_sum (map (fun _ => 1) recent) in
  ret (100 <? recent_count).

(** [f"{packet.dst_port}"] *)
Definition format_port (o : option Z) : string :=
  match o with
  | None => "None"
  | Some port => pretty port
  end.

(** [WiFiIDS.analyze_packet] *)
Definition analyze_packet (self : WiFiIDS) (packet : NetworkPacket)
    : IO WiFiIDS :=
  let* scan := detect_port_scan self packet in
  let* self :=
    if scan
    then create_threat_alert self "PORT_SCAN" "HIGH" (src_ip packet)
           ("Port scan detected from " +:+ src_ip packet) (8 # 10)
    else ret self in
  let* self :=
    if detect_suspicious_port self packet
    then create_threat_alert self "SUSPICIOUS_PORT" "MEDIUM" (src_ip packet)
           ("Connection to suspicious port " +:+ format_port (dst_port packet)
            +:+ " from " +:+ src_ip packet) (6 # 10)
    else ret self in
  let* ddos := detect_ddos self packet in
  if ddos
  then create_threat_alert self "DDOS" "CRITICAL" (src_ip packet)
         ("Potential DDoS attack from " +:+ src_ip packet) (9 # 10)
  else ret self.

(** [WiFiIDS.packet_callback] *)
Definition packet_callback (self : WiFiIDS) (packet : ScapyPacket)
    : IO WiFiIDS :=
  match ip_layer packet with
  | None => ret self
  | Some (src, dst) =>
      let* now := time_time in
      let network_packet :=
        match layer4 packet with
        | L4_TCP sport dport tcp_flags =>
            {| timestamp := now; src_ip := src; dst_ip := dst;
               protocol := get_protocol packet; length := wire_len packet;
               src_port := Some sport; dst_port := Some dport;
               flags := Some tcp_flags |}
        | L4_UDP sport dport =>
            {| timestamp := now; src_ip := src; dst_ip := dst;
               protocol := get_protocol packet; length := wire_len packet;
               src_port := Some sport; dst_port := Some dport;
               flags := None |}
        | _ =>
            {| timestamp := now; src_ip := src; dst_ip := dst;
               protocol := get_protocol packet; length := wire_len packet;
               src_port := None; dst_port := None; flags := None |}
        end in
      let self :=
        {| packet_buffer := deque_append (packet_buffer self) network_packet;
           connection_tracker :=
             <[ src := default 0 (connection_tracker self !! src) + 1 ]>
               (connection_tracker self);
           suspicious_ips := suspicious_ips self;
           threat_alerts := threat_alerts self;
           ml_model := ml_model self;
           sk_calls := sk_calls self |} in
      analyze_packet self network_packet
  end.

Definition log_call (self : WiFiIDS) (c : SkCall) : WiFiIDS :=
  {| packet_buffer := packet_buffer self;
     connection_tracker := connection_tracker self;
     suspicious_ips := suspicious_ips self;
     threat_alerts := threat_alerts self;
     ml_model := ml_model self;
     sk_calls := sk_calls self ++ [c] |}.

Definition set_model (self : WiFiIDS) (m : Fitted) : WiFiIDS :=
  {| packet_buffer := packet_buffer self;
     connection_tracker := connection_tracker self;
     suspicious_ips := suspicious_ips self;
     threat_alerts := threat_alerts self;
     ml_model := Some m;
     sk_calls := sk_calls self |}.

(** The loop [for i, (is_anomaly, score) in enumerate(zip(...))] of
    [ml_analysis]; [n] is [len(features)], [i] the index of the head of
    [rows].  An [IndexError] leaves the loop through the handler of
    [ml_analysis], which keeps the alerts made so far. *)
Fixpoint anomaly_loop (self : WiFiIDS) (n : Z) (i : Z)
    (rows : list (Z * Q)) : IO WiFiIDS :=
  match rows with
  | [] => ret self
  | (is_anomaly, score) :: rest =>
      if is_anomaly =? -1 then
        match py_index (dq_items (packet_buffer self)) (- (n - i)) with
        | None => ret self
        | Some packet =>
            let* self :=
              create_threat_alert self "ANOMALY" "MEDIUM" (src_ip packet)
                ("Anomalous network behavior detected from "
                 +:+ src_ip packet) (Qabs score) in
            anomaly_loop self n (i + 1) rest
        end
      else anomaly_loop self n (i + 1) rest
  end.

(** [WiFiIDS.ml_analysis] *)
Definition ml_analysis (self : WiFiIDS) : IO WiFiIDS :=
  match extract_features (packet_buffer self) with
  | None => ret self
  | Some features =>
      if len features <? 10 then ret self
      else
        let features_scaled := scaler_fit_transform features in
        let self := log_call self (ScalerFitTransform features) in
        match ml_model self with
        | None =>
            let self := log_call self (ForestFit features_scaled) in
            ret (set_model self (forest_fit features_scaled))
        | Some model =>
            let anomalies := forest_predict model features_scaled in
            let self := log_call self (ForestPredict features_scaled) in
            let anomaly_scores :=
              forest_decision_function model features_scaled in
            let self :=
              log_call self (ForestDecisionFunction features_scaled) in
            anomaly_loop self (len features) 0
              (zip anomalies anomaly_scores)
        end
  end.

(** [WiFiIDS.update_statistics]: the row that it inserts into
    [network_stats] (timestamp, total_packets, unique_ips,
    suspicious_activities); the database is outside the engine. *)
Definition update_statistics (self : WiFiIDS) : IO (Q * Z * Z * Z) :=
  let* now := time_time in
  let unique_ips : gset string :=
    list_to_set (map src_ip (dq_items (packet_buffer self))) in
  ret (now, len (dq_items (packet_buffer self)),
       Z.of_nat (size unique_ips), Z.of_nat (size (suspicious_ips self))).

(** One turn of the loop of [continuous_analysis], after the sleep. *)
Definition analysis_cycle (self : WiFiIDS) : IO WiFiIDS :=
  if 100 <? len (dq_items (packet_buffer self))
  then
    let* self := ml_analysis self in
    let* row := update_statistics self in
    ret self
  else ret self.

(** A run of the engine, in the order in which the work is served: a
    packet delivered by the sniffer, a wake-up of the analysis thread
    ([continuous_analysis], which analyses only a window of more than 100
    records), or a call of [ml_analysis] itself. *)
Inductive Event :=
  | Sniffed (packet : ScapyPacket)
  | AnalysisWakeup
  | AnalysisCycle.

Definition step (self : WiFiIDS) (e : Event) : IO WiFiIDS :=
  match e with
  | Sniffed packet => packet_callback self packet
  | AnalysisWakeup => analysis_cycle self
  | AnalysisCycle => ml_analysis self
  end.

Fixpoint run_events (self : WiFiIDS) (es : list Event) : IO WiFiIDS :=
  match es with
  | [] => ret self
  | e :: es' =>
      let* self := step self e in
      run_events self es'
  end.

End Engine.

Arguments packet_buffer {Fitted}.
Arguments connection_tracker {Fitted}.
Arguments suspicious_ips {Fitted}.
Arguments threat_alerts {Fitted}.
Arguments ml_model {Fitted}.
Arguments sk_calls {Fitted}.
Arguments create_threat_alert clk {Fitted}.
Arguments detect_port_scan clk {Fitted}.
Arguments detect_suspicious_port {Fitted}.
Arguments detect_ddos clk {Fitted}.
Arguments analyze_packet clk {Fitted}.
Arguments packet_callback clk {Fitted}.
Arguments anomaly_loop clk {Fitted}.
Arguments ml_analysis clk {Fitted}.
Arguments update_statistics clk {Fitted}.
Arguments analysis_cycle clk {Fitted}.
Arguments step clk {Fitted}.
Arguments run_events clk {Fitted}.
Arguments log_call {Fitted}.
Arguments set_model {Fitted}.
Arguments init {Fitted}.


(** ** Reporting and set-up *)

(** [needle in hay] on strings. *)
Fixpoint str_in (needle hay : string) : bool :=
  String.prefix needle hay
  || match hay with
     | EmptyString => false
     | String _ hay' => str_in needle hay'
     end.

(** Truthiness of an optional string: [None] and [''] are falsy. *)
Definition str_truthy (o : option string) : bool :=
  match o with
  | None => false
  | Some s => negb (String.eqb s "")
  end.

(** The test of the Windows loop of [get_network_interface]. *)
Definition windows_wifi (iface : string) : bool :=
  str_in "Wi-Fi" iface || str_in "WiFi" iface || str_in "Wireless" iface.

(** The test of the other loop; [lower] is [str.lower]. *)
Definition unix_wifi (lower : string -> string) (iface : string) : bool :=
  str_in "wlan" (lower iface) || str_in "wifi" (lower iface).

(** [for iface in interfaces: if test(iface): return iface] *)
Fixpoint first_interface (test : string -> bool) (interfaces : list string)
    : option string :=
  match interfaces with
  | [] => None
  | iface :: rest =>
      if test iface then Some iface else first_interface test rest
  end.

(** [WiFiIDS.get_network_interface]; [config_interface] is
    [config['INTERFACE']], [platform_system] is [platform.system()] and
    [interfaces] is [get_if_list()]. *)
Definition get_network_interface (lower : string -> string)
    (config_interface : option string) (platform_system : string)
    (interfaces : list string) : string :=
  if str_truthy config_interface then default "" config_interface
  else
    let found :=
      if String.eqb platform_system "Windows"
      then first_interface windows_wifi interfaces
      else first_interface (unix_wifi lower) interfaces in
    match found with
    | Some iface => iface
    | None =>
        match interfaces with
        | iface :: _ => iface
        | [] => "eth0"
        end
    end.


(** ** Vocabulary of the specification *)

(** Records arrive in non-decreasing timestamp order. *)
Definition older_or_equal (a b : NetworkPacket) : Prop :=
  (timestamp a <= timestamp b)%Q.

#[global] Instance Qlt_decision (x y : Q) : Decision (x < y)%Q.
Proof.
  destruct (Qlt_le_dec x y) as [H | H]; [left; exact H | right].
  intros H'. exact (Qlt_not_le _ _ H' H).
Defined.

(** The window records of source [ip], each with its age at the moment a
    detector examines it: the detector reads the clock once per such record,
    the first of them with read number [k]. *)
Fixpoint ages (clk : nat -> Q) (ip : string) (buffer : list NetworkPacket)
    (k : nat) : list (NetworkPacket * Q) :=
  match buffer with
  | [] => []
  | p :: rest =>
      if decide (src_ip p = ip)
      then (p, (clk k - timestamp p)%Q) :: ages clk ip rest (S k)
      else ages clk ip rest k
  end.

(** The records whose age is strictly less than [w] seconds. *)
Definition younger_than (w : Q) (l : list (NetworkPacket * Q))
    : list NetworkPacket :=
  map fst (filter (fun pa => (snd pa < w)%Q) l).

(** The destination ports that are present and not [0]. *)
Definition nonzero_ports (l : list NetworkPacket) : gset Z :=
  list_to_set (filter (fun v => v <> 0) (omap dst_port l)).

(** The destination ports that are present. *)
Definition present_ports (l : list NetworkPacket) : gset Z :=
  list_to_set (omap dst_port l).

(** The source addresses of the window, each once, in the order in which
    they first appear. *)
Fixpoint sources (buffer : list NetworkPacket) : list string :=
  match buffer with
  | [] => []
  | p :: rest => src_ip p :: filter (fun ip => ip <> src_ip p) (sources rest)
  end.

(** The window records of one source, in window order. *)
Definition group_of (buffer : list NetworkPacket) (ip : string)
    : list NetworkPacket :=
  filter (fun p => src_ip p = ip) buffer.

(** The groups that feature extraction keeps: at least 5 records. *)
Definition qualifying_groups (buffer : list NetworkPacket)
    : list (list NetworkPacket) :=
  filter (fun g => (5 <= List.length g)%nat)
         (map (group_of buffer) (sources buffer)).

Definition total_bytes (g : list NetworkPacket) : Z :=
  foldr (fun p s => length p + s) 0 g.

Definition protocols (g : list NetworkPacket) : gset string :=
  list_to_set (map protocol g).

(** [v] is the feature vector of group [g], with [ports g] as the set of
    destination ports that count. *)
Definition feature_vector_of (ports : list NetworkPacket -> gset Z)
    (g : list NetworkPacket) (v : list Q) : Prop :=
  exists hi lo d : Q,
    In hi (map timestamp g) /\ In lo (map timestamp g) /\
    (forall p, In p g -> (lo <= timestamp p <= hi)%Q) /\
    d = (if decide (1 < hi - lo)%Q then (hi - lo)%Q else 1%Q) /\
    (1 <= d)%Q /\
    v = [ (inject_Z (len g) / d)%Q;
          (inject_Z (total_bytes g) / inject_Z (len g))%Q;
          inject_Z (Z.of_nat (size (ports g)));
          inject_Z (Z.of_nat (size (protocols g))) ].

(** The batches on which the forest was fit, oldest first. *)
Definition fit_calls (calls : list SkCall) : list (list (list Q)) :=
  omap (fun c => match c with ForestFit X => Some X | _ => None end) calls.

(** The rows that the forest labels as outliers, with their index. *)
Fixpoint outliers (i : Z) (rows : list (Z * Q)) : list (Z * Q) :=
  match rows with
  | [] => []
  | (label, score) :: rest =>
      if decide (label = -1) then (i, score) :: outliers (i + 1) rest
      else outliers (i + 1) rest
  end.

(** The clock shows [now] at every read from the [k]-th on. *)
Definition reads_now (clk : nat -> Q) (k : nat) (now : Q) : Prop :=
  forall j, (k <= j)%nat -> clk j = now.

(** An alert of a rule detector or of the scorer. *)
Definition alert (t : Q) (kind sev ip desc : string) (conf : Q)
    : ThreatAlert :=
  {| alert_timestamp := t; threat_type := kind; severity := sev;
     source_ip := ip; description := desc; confidence := conf |}.


(** ** Sample traffic *)

Definition window_packet (ts : Q) (src : string) (port : Z) : NetworkPacket :=
  {| timestamp := ts; src_ip := src; dst_ip := "192.168.1.1";
     protocol := "TCP"; length := 60; src_port := Some 40000;
     dst_port := Some port; flags := Some "S" |}.

Definition full_window : Deque :=
  {| dq_maxlen := 3;
     dq_items := [window_packet 1 "10.0.0.5" 80;
                  window_packet 2 "10.0.0.6" 80;
                  window_packet 2 "10.0.0.5" 443] |}.


(** A clock that advances by one millisecond per read, from second 30. *)
Definition ticking_clock (k : nat) : Q :=
  (30 + inject_Z (Z.of_nat k) / 1000)%Q.

(** [n] TCP records of [src] at time [ts], to the ports [1 .. n]. *)
Definition burst (ts : Q) (src : string) (n : nat) : list NetworkPacket :=
  map (fun i => window_packet ts src (Z.of_nat i + 1)) (seq 0 n).

(** An ICMP record: no ports. *)
Definition ping (ts : Q) (src : string) : NetworkPacket :=
  {| timestamp := ts; src_ip := src; dst_ip := "192.168.1.1";
     protocol := "ICMP"; length := 84; src_port := None; dst_port := None;
     flags := None |}.

(** A stand-in for the learner: the fitted model is the batch it was fit
    on; it labels the first row of a batch as an outlier and scores every
    row [-1/4]. *)
Definition sample_scaler (X : list (list Q)) : list (list Q) := X.
Definition sample_fit (X : list (list Q)) : list (list Q) := X.
Definition sample_predict (m X : list (list Q)) : list Z :=
  match X with
  | [] => []
  | _ :: rest => -1 :: map (fun _ => 1) rest
  end.
Definition sample_scores (m X : list (list Q)) : list Q :=
  map (fun _ => (- (1 # 4))%Q) X.

(** An engine with the given window and scorer state. *)
Definition engine (items : list NetworkPacket)
    (model : option (list (list Q))) : WiFiIDS (list (list Q)) :=
  {| packet_buffer := {| dq_maxlen := Z.to_nat 10000; dq_items := items |};
     connection_tracker := ∅;
     suspicious_ips := ∅;
     threat_alerts := [];
     ml_model := model;
     sk_calls := [] |}.

Definition scanner : string := "10.0.0.66".

(** Ten sources with five records each, source after source. *)
Definition ten_sources : list string :=
  ["10.0.0.0"; "10.0.0.1"; "10.0.0.2"; "10.0.0.3"; "10.0.0.4";
   "10.0.0.5"; "10.0.0.6"; "10.0.0.7"; "10.0.0.8"; "10.0.0.9"].

Definition ten_sources_window : list NetworkPacket :=
  flat_map (fun ip => map (fun _ => window_packet 1 ip 80) (seq 0 5))
           ten_sources.

(** Five records of one source to destination port 0. *)
Definition zero_port_window : Deque :=
  {| dq_maxlen := Z.to_nat 10000;
     dq_items := map (fun _ => window_packet 1 "10.0.0.5" 0) (seq 0 5) |}.

(** ** Vocabulary of the run-level properties *)

(** The clock never goes back. *)
Definition monotone (clk : nat -> Q) : Prop :=
  forall i j, (i <= j)%nat -> (clk i <= clk j)%Q.

(** The source addresses of the packets with an IP layer that a run
    delivers, in the order of delivery. *)
Definition sniffed_sources (es : list Event) : list string :=
  omap (fun e => match e with
                 | Sniffed packet => fst <$> ip_layer packet
                 | _ => None
                 end) es.

(** The run never calls [ml_analysis] other than through the analysis
    thread. *)
Definition sniff_and_wake (es : list Event) : Prop :=
  Forall (fun e => e <> AnalysisCycle) es.

(** What [after] holds beyond [self] is alerts, made between clock reads [k]
    and [k']: the alert list grew at its end, every source of a new alert
    was added to the suspicious addresses and nothing else was, and the new
    alerts are stamped, in order, with clock reads [reads] taken one after
    the other in between. *)
Definition emits (clk : nat -> Q) {Fitted : Type}
    (self after : WiFiIDS Fitted) (k k' : nat) : Prop :=
  (k <= k')%nat /\
  exists (added : list ThreatAlert) (reads : list nat),
    threat_alerts after = threat_alerts self ++ added /\
    suspicious_ips after
    = list_to_set (map source_ip added) ∪ suspicious_ips self /\
    map alert_timestamp added = map clk reads /\
    StronglySorted lt reads /\
    Forall (fun j => (k <= j < k')%nat) reads.


(** [after] differs from [self] by emitted alerts only. *)
Definition only_alerts (clk : nat -> Q) {Fitted : Type}
    (self after : WiFiIDS Fitted) (k k' : nat) : Prop :=
  packet_buffer after = packet_buffer self /\
  connection_tracker after = connection_tracker self /\
  ml_model after = ml_model self /\
  sk_calls after = sk_calls self /\
  emits clk self after k k'.

(** The destination port of the transport layer of a delivered packet. *)
Definition transport_dport (packet : ScapyPacket) : option Z :=
  match layer4 packet with
  | L4_TCP _ dport _ | L4_UDP _ dport => Some dport
  | _ => None
  end.

(** Ingesting [packet], of source [src], at clock read [k] into a window
    that is full: the window keeps its size and its capacity, exactly one
    record [e] leaves (the old contents followed by the new record are [e]
    followed by the new contents), no record that was present is older than
    [e], and for a capacity above 0 the record [e] is the left-most record
    that was present. *)
Definition ingest_evicts_oldest (clk : nat -> Q) {Fitted : Type}
    (self : WiFiIDS Fitted) (packet : ScapyPacket) (src : string) (k : nat)
    : Prop :=
  let before := dq_items (packet_buffer self) in
  let after := dq_items (packet_buffer (run (packet_callback clk self packet) k)) in
  List.length after = dq_maxlen (packet_buffer self) /\
  dq_maxlen (packet_buffer (run (packet_callback clk self packet) k))
  = dq_maxlen (packet_buffer self) /\
  exists e record,
    timestamp record = clk k /\ src_ip record = src /\
    before ++ [record] = e :: after /\
    (forall r, In r before -> older_or_equal e r) /\
    ((0 < dq_maxlen (packet_buffer self))%nat ->
       In e before /\ head before = Some e /\
       after = tail before ++ [record]).

(** Packets as scapy delivers them. *)
Definition tcp_sniffed (src : string) (dport : Z) : ScapyPacket :=
  {| ip_layer := Some (src, "192.168.1.1");
     layer4 := L4_TCP 40000 dport "S";
     wire_len := 60 |}.

Definition icmp_sniffed (src : string) : ScapyPacket :=
  {| ip_layer := Some (src, "192.168.1.1");
     layer4 := L4_ICMP;
     wire_len := 84 |}.

Definition arp_sniffed : ScapyPacket :=
  {| ip_layer := None; layer4 := L4_ARP; wire_len := 42 |}.

(** A run of the engine with the stand-in learner and the ticking clock. *)
Definition sample_run (self : WiFiIDS (list (list Q))) (es : list Event)
    : IO (WiFiIDS (list (list Q))) :=
  run_events ticking_clock sample_scaler sample_fit sample_predict
    sample_scores self es.

(** Four packets with an IP layer, an ARP frame and an analysis wake-up. *)
Definition short_run : list Event :=
  [Sniffed (tcp_sniffed "10.0.0.5" 80);
   Sniffed arp_sniffed;
   Sniffed (tcp_sniffed scanner 22);
   AnalysisWakeup;
   Sniffed (icmp_sniffed "10.0.0.5");
   Sniffed (tcp_sniffed scanner 3389)].

(** An engine whose window of capacity 3 is full. *)
Definition full_engine : WiFiIDS (list (list Q)) :=
  {| packet_buffer := full_window;
     connection_tracker := ∅;
     suspicious_ips := ∅;
     threat_alerts := [];
     ml_model := None;
     sk_calls := [] |}.

(** Three packets with an IP layer, which fill a window of capacity 3. *)
Definition three_packets : list Event :=
  [Sniffed (tcp_sniffed "10.0.0.5" 80);
   Sniffed (icmp_sniffed "10.0.0.6");
   Sniffed (tcp_sniffed "10.0.0.5" 443)].
(** ** Python primitives *)

Lemma Qltb_lt (a b : Q) : Qltb a b = true <-> (a < b)%Q.
Proof.
  unfold Qltb. rewrite Qlt_alt. destruct (a ?= b)%Q; split; congruence.
Qed.

Lemma Qltb_decide (a b : Q) : Qltb a b = bool_decide (a < b)%Q.
Proof.
  destruct (Qltb a b) eqn:E; symmetry.
  - apply bool_decide_eq_true_2. by apply Qltb_lt.
  - apply bool_decide_eq_false_2. intros H. apply Qltb_lt in H. congruence.
Qed.

Lemma py_sum_from (l : list Z) (a : Z) : fold_left Z.add l a = a + py_sum l.
Proof.
  unfold py_sum. revert a.
  induction l as [| x l IH]; intros a; cbn [fold_left]; [lia |].
  rewrite (IH (a + x)), (IH (0 + x)). lia.
Qed.

Lemma py_sum_ones {A} (l : list A) : py_sum (map (fun _ => 1) l) = len l.
Proof.
  unfold len. induction l as [| x l IH]; [done |].
  unfold py_sum in *. cbn [map fold_left]. rewrite py_sum_from.
  unfold py_sum. rewrite IH. cbn [List.length]. lia.
Qed.

Lemma truthy_present (o : option Z) :
  truthy o = true <-> exists port, o = Some port /\ port <> 0.
Proof.
  unfold truthy. destruct o as [v |].
  - rewrite negb_true_iff, Z.eqb_neq. split.
    + intros Hv. by exists v.
    + by intros (port & [= <-] & Hv).
  - split; [done | by intros (port & ? & _)].
Qed.

Lemma truthy_ports_nonzero (l : list NetworkPacket) :
  truthy_ports l = filter (fun v => v <> 0) (omap dst_port l).
Proof.
  unfold truthy_ports. induction l as [| p l IH]; [done |].
  cbn [omap list_omap]. destruct (dst_port p) as [v |]; cbn [truthy].
  - rewrite filter_cons. destruct (Z.eqb_spec v 0) as [-> | Hv]; cbn [negb].
    + destruct (decide (0 <> 0)); [done | exact IH].
    + destruct (decide (v <> 0)); [by rewrite IH | done].
  - exact IH.
Qed.

(** ** The rolling window *)

Lemma older_or_equal_trans a b c :
  older_or_equal a b -> older_or_equal b c -> older_or_equal a c.
Proof. unfold older_or_equal. apply Qle_trans. Qed.

Lemma sorted_head_oldest (e : NetworkPacket) (rest : list NetworkPacket) :
  Sorted older_or_equal (e :: rest) ->
  forall r, In r (e :: rest) -> older_or_equal e r.
Proof.
  intros Hs r Hr.
  apply Sorted_StronglySorted in Hs;
    [| intros a b c; apply older_or_equal_trans].
  inversion Hs as [| ? ? _ Hall]; subst.
  destruct Hr as [<- | Hr].
  - apply Qle_refl.
  - rewrite Forall_forall in Hall. apply Hall. by apply list_elem_of_In.
Qed.

(** One [append] to a full deque whose records are in non-decreasing
    timestamp order: the size stays, the left-most record leaves, and no
    record that was present is older than it. *)
Lemma deque_append_at_capacity (d : Deque) (x : NetworkPacket) :
  List.length (dq_items d) = dq_maxlen d ->
  Sorted older_or_equal (dq_items d) ->
  List.length (dq_items (deque_append d x)) = dq_maxlen d /\
  dq_maxlen (deque_append d x) = dq_maxlen d /\
  exists e,
    dq_items d ++ [x] = e :: dq_items (deque_append d x) /\
    (forall r, In r (dq_items d) -> older_or_equal e r) /\
    ((0 < dq_maxlen d)%nat ->
       In e (dq_items d) /\ head (dq_items d) = Some e /\
       dq_items (deque_append d x) = tail (dq_items d) ++ [x]).
Proof.
  intros Hlen Hsorted. unfold deque_append. cbn [dq_items dq_maxlen].
  assert (Hlt : (dq_maxlen d <? List.length (dq_items d ++ [x]))%nat = true).
  { apply Nat.ltb_lt. rewrite length_app. simpl. lia. }
  rewrite Hlt. destruct (dq_items d) as [| e rest] eqn:Hitems.
  - simpl in *. split; [lia |]. split; [done |].
    exists x. split; [done |]. split; [intros r [] |]. intros; lia.
  - simpl in *. split; [rewrite length_app; simpl; lia |]. split; [done |].
    exists e. split; [done |]. split.
    + intros r Hr. by apply (sorted_head_oldest e rest).
    + intros _. auto.
Qed.


(** ** The rule detectors *)

Section Detectors.

Context (clk : nat -> Q) {Fitted : Type}.
Implicit Types (self : WiFiIDS Fitted) (packet : NetworkPacket).
Implicit Types (buffer : list NetworkPacket) (k : nat).

Lemma younger_than_cons (w : Q) (p : NetworkPacket) (a : Q)
    (l : list (NetworkPacket * Q)) :
  younger_than w ((p, a) :: l)
  = if decide (a < w)%Q then p :: younger_than w l else younger_than w l.
Proof.
  unfold younger_than. rewrite filter_cons. cbn [snd].
  by destruct (decide (a < w)%Q).
Qed.
(** The comprehension of the two windowed detectors keeps the records
    that are younger than [w] when they are examined, and reads the clock
    once per record of the source. *)
Lemma recent_packets_ages (w : Q) (ip : string) buffer k :
  recent_packets clk w ip buffer k
  = (younger_than w (ages clk ip buffer k),
     (k + List.length (ages clk ip buffer k))%nat).
Proof.
  revert k. induction buffer as [| p rest IH]; intros k.
  - cbn. f_equal. lia.
  - cbn [recent_packets ages].
    destruct (decide (src_ip p = ip)) as [Heq | Hne].
    + rewrite (proj2 (String.eqb_eq _ _) Heq).
      unfold bind, time_time. rewrite IH. unfold ret.
      rewrite younger_than_cons, Qltb_decide. cbn [List.length].
      destruct (decide (clk k - timestamp p < w)%Q);
        [rewrite bool_decide_eq_true_2 by done
        | rewrite bool_decide_eq_false_2 by done];
        (apply injective_projections; cbn [fst snd]; [reflexivity | lia]).
    + rewrite (proj2 (String.eqb_neq _ _) Hne). apply IH.
Qed.

(** When the clock does not move during the pass, the ages are taken
    against that one reading. *)
Lemma younger_than_steady (w now : Q) (ip : string) buffer k :
  reads_now clk k now ->
  younger_than w (ages clk ip buffer k)
  = filter (fun p => src_ip p = ip /\ (now - timestamp p < w)%Q) buffer.
Proof.
  revert k. induction buffer as [| p rest IH]; intros k Hnow; [done |].
  cbn [ages]. rewrite filter_cons.
  assert (Hrest : reads_now clk (S k) now).
  { intros j Hj. apply Hnow. lia. }
  destruct (decide (src_ip p = ip)) as [Heq | Hne].
  - rewrite younger_than_cons, (Hnow k), (IH (S k) Hrest) by lia.
    destruct (decide (now - timestamp p < w)%Q) as [Hlt | Hge].
    + by rewrite decide_True.
    + rewrite decide_False; [done |]. by intros [_ ?].
  - rewrite decide_False; [by apply IH |]. by intros [? _].
Qed.


Lemma detect_ddos_count self packet k :
  run (detect_ddos clk self packet) k
  = (100 <? len (younger_than 10
                   (ages clk (src_ip packet)
                      (dq_items (packet_buffer self)) k))).
Proof.
  unfold run, detect_ddos, bind. rewrite recent_packets_ages.
  cbn [ret fst]. by rewrite py_sum_ones.
Qed.

(** C4.  The flood detector fires exactly when more than 100 window
    records of the input record's source are younger than 10 seconds at
    the clock reading against which the detector examines them: 101 such
    records make it fire, 100 do not. *)
Theorem detect_ddos_fires_iff self packet k :
  let recent :=
    younger_than 10
      (ages clk (src_ip packet) (dq_items (packet_buffer self)) k) in
  (run (detect_ddos clk self packet) k = true
     <-> (100 < List.length recent)%nat) /\
  (List.length recent = 101%nat ->
     run (detect_ddos clk self packet) k = true) /\
  (List.length recent = 100%nat ->
     run (detect_ddos clk self packet) k = false).
Proof.
  intros recent. rewrite detect_ddos_count. fold recent. unfold len.
  split; [| split].
  - rewrite Z.ltb_lt. lia.
  - intros ->. reflexivity.
  - intros ->. reflexivity.
Qed.

(** The same count against a clock that stands still during the pass. *)
Lemma detect_ddos_steady_clock self packet k (now : Q) :
  reads_now clk k now ->
  run (detect_ddos clk self packet) k = true
  <-> (100 < List.length
               (filter (fun p => src_ip p = src_ip packet /\
                                 (now - timestamp p < 10)%Q)
                  (dq_items (packet_buffer self))))%nat.
Proof.
  intros Hnow. rewrite detect_ddos_count.
  rewrite (younger_than_steady 10 now) by done.
  unfold len. rewrite Z.ltb_lt. lia.
Qed.

Lemma detect_port_scan_ports self packet k :
  run (detect_port_scan clk self packet) k
  = truthy (dst_port packet)
    && (20 <? size (nonzero_ports
                      (younger_than 60
                         (ages clk (src_ip packet)
                            (dq_items (packet_buffer self)) k))))%nat.
Proof.
  unfold run, detect_port_scan.
  destruct (truthy (dst_port packet)); cbn [negb andb]; [| done].
  unfold bind. rewrite recent_packets_ages. cbn [ret fst].
  unfold nonzero_ports. by rewrite truthy_ports_nonzero.
Qed.

(** C3, as amended.  For a record whose destination port is present and
    not 0, the scan detector fires exactly when the window records of the
    same source that are younger than 60 seconds, at the clock reading
    against which the detector examines them, carry more than 20 distinct
    destination ports other than 0: 21 such ports make it fire, 20 do not.
    For a record whose destination port is absent or 0 it does not fire. *)
Theorem detect_port_scan_fires_iff self packet k :
  let ports :=
    nonzero_ports
      (younger_than 60
         (ages clk (src_ip packet) (dq_items (packet_buffer self)) k)) in
  ((exists port, dst_port packet = Some port /\ port <> 0) ->
     (run (detect_port_scan clk self packet) k = true
        <-> (20 < size ports)%nat) /\
     (size ports = 21%nat ->
        run (detect_port_scan clk self packet) k = true) /\
     (size ports = 20%nat ->
        run (detect_port_scan clk self packet) k = false)) /\
  (dst_port packet = None \/ dst_port packet = Some 0 ->
     run (detect_port_scan clk self packet) k = false).
Proof.
  intros ports. rewrite detect_port_scan_ports. fold ports. split.
  - intros Hport. apply truthy_present in Hport. rewrite Hport.
    cbn [andb]. split; [| split].
    + by rewrite Nat.ltb_lt.
    + intros ->. reflexivity.
    + intros ->. reflexivity.
  - by intros [-> | ->].
Qed.

(** Against a clock that stands still during the pass. *)
Lemma detect_port_scan_steady_clock self packet k (now : Q) :
  reads_now clk k now ->
  (exists port, dst_port packet = Some port /\ port <> 0) ->
  run (detect_port_scan clk self packet) k = true
  <-> (20 < size (nonzero_ports
                    (filter (fun p => src_ip p = src_ip packet /\
                                      (now - timestamp p < 60)%Q)
                       (dq_items (packet_buffer self)))))%nat.
Proof.
  intros Hnow Hport. apply truthy_present in Hport.
  rewrite detect_port_scan_ports, Hport.
  rewrite (younger_than_steady 60 now) by done.
  cbn [andb]. by rewrite Nat.ltb_lt.
Qed.

(** C5.  The sensitive-port detector fires exactly when the destination
    port is present and is one of the ten listed ports; its answer is the
    same for any two records with the same destination port, whatever
    their other fields and whatever the engine state; it does not fire on a
    record without destination port. *)
Theorem detect_suspicious_port_iff self packet :
  (detect_suspicious_port self packet = true
     <-> exists port,
           dst_port packet = Some port /\
           In port [22; 23; 135; 139; 445; 1433; 3389; 5432; 5900; 6379]) /\
  (forall self' packet',
     dst_port packet' = dst_port packet ->
     detect_suspicious_port self' packet'
     = detect_suspicious_port self packet) /\
  (dst_port packet = None -> detect_suspicious_port self packet = false).
Proof.
  unfold detect_suspicious_port. split; [| split].
  - destruct (dst_port packet) as [port |].
    + rewrite bool_decide_eq_true. unfold suspicious_ports.
      rewrite !elem_of_union, !elem_of_singleton. cbn [In]. split.
      * intros H. exists port. split; [done |]. intuition auto.
      * intros (port' & [= <-] & H). intuition auto.
    + split; [done |]. by intros (port & ? & _).
  - by intros self' packet' ->.
  - by intros ->.
Qed.

Lemma create_threat_alert_run self (kind sev ip desc : string) (conf : Q) k :
  create_threat_alert clk self kind sev ip desc conf k
  = ({| packet_buffer := packet_buffer self;
        connection_tracker := connection_tracker self;
        suspicious_ips := {[ ip ]} ∪ suspicious_ips self;
        threat_alerts :=
          threat_alerts self ++ [alert (clk k) kind sev ip desc conf];
        ml_model := ml_model self;
        sk_calls := sk_calls self |}, S k).
Proof. reflexivity. Qed.

Lemma detect_suspicious_port_state self' self packet :
  detect_suspicious_port self' packet = detect_suspicious_port self packet.
Proof. reflexivity. Qed.

(** The alerts of one [analyze_packet], with the clock reads at which
    each detector and each alert is served. *)
Lemma analyze_packet_unfold self packet k :
  let scan := detect_port_scan clk self packet k in
  let k1 := if scan.1 then S scan.2 else scan.2 in
  let sensitive := detect_suspicious_port self packet in
  let k2 := if sensitive then S k1 else k1 in
  let flood := detect_ddos clk self packet k2 in
  let after := run (analyze_packet clk self packet) k in
  packet_buffer after = packet_buffer self /\
  ml_model after = ml_model self /\
  sk_calls after = sk_calls self /\
  threat_alerts after =
    threat_alerts self
    ++ (if scan.1
        then [alert (clk scan.2) "PORT_SCAN" "HIGH" (src_ip packet)
                ("Port scan detected from " +:+ src_ip packet) (8 # 10)]
        else [])
    ++ (if sensitive
        then [alert (clk k1) "SUSPICIOUS_PORT" "MEDIUM" (src_ip packet)
                ("Connection to suspicious port "
                 +:+ format_port (dst_port packet)
                 +:+ " from " +:+ src_ip packet) (6 # 10)]
        else [])
    ++ (if flood.1
        then [alert (clk flood.2) "DDOS" "CRITICAL" (src_ip packet)
                ("Potential DDoS attack from " +:+ src_ip packet) (9 # 10)]
        else []).
Proof.
  cbv zeta. unfold run, analyze_packet, bind.
  destruct (detect_port_scan clk self packet k) as [b1 k1] eqn:Escan.
  cbn [fst snd].
  destruct b1; rewrite ?create_threat_alert_run; cbn [ret];
    try rewrite (detect_suspicious_port_state _ self);
    (destruct (detect_suspicious_port self packet);
     rewrite ?create_threat_alert_run; cbn [ret];
     unfold detect_ddos, bind; cbn [packet_buffer];
     match goal with
     | |- context [recent_packets clk 10 ?ip ?l ?j] =>
         destruct (recent_packets clk 10 ip l j) as [recent k3]
     end;
     cbn [ret fst snd];
     destruct (100 <? _); rewrite ?create_threat_alert_run; cbn [ret fst];
     cbn [packet_buffer ml_model sk_calls threat_alerts];
     rewrite <- ?app_assoc, ?app_nil_r; done).
Qed.


(** C6.  [analyze_packet] serves the scan detector, then the
    sensitive-port detector, then the flood detector, all on the same
    window; the alerts it adds are, in this order, one PORT_SCAN alert
    (HIGH, 0.8) if the scan detector fires, one SUSPICIOUS_PORT alert
    (MEDIUM, 0.6) if the sensitive-port detector fires, and one DDOS alert
    (CRITICAL, 0.9) if the flood detector fires: every combination of the
    three answers gives its own alerts. *)
Theorem analyze_packet_alerts self packet k :
  exists (k2 : nat) (t1 t2 t3 : Q),
    (k <= k2)%nat /\
    packet_buffer (run (analyze_packet clk self packet) k)
    = packet_buffer self /\
    threat_alerts (run (analyze_packet clk self packet) k) =
      threat_alerts self
      ++ (if run (detect_port_scan clk self packet) k
          then [alert t1 "PORT_SCAN" "HIGH" (src_ip packet)
                  ("Port scan detected from " +:+ src_ip packet) (8 # 10)]
          else [])
      ++ (if detect_suspicious_port self packet
          then [alert t2 "SUSPICIOUS_PORT" "MEDIUM" (src_ip packet)
                  ("Connection to suspicious port "
                   +:+ format_port (dst_port packet)
                   +:+ " from " +:+ src_ip packet) (6 # 10)]
          else [])
      ++ (if run (detect_ddos clk self packet) k2
          then [alert t3 "DDOS" "CRITICAL" (src_ip packet)
                  ("Potential DDoS attack from " +:+ src_ip packet)
                  (9 # 10)]
          else []).
Proof.
  destruct (analyze_packet_unfold self packet k) as (Hbuf & _ & _ & Halerts).
  cbv zeta in Halerts, Hbuf.
  eexists _, _, _, _. split; [| split; [exact Hbuf | exact Halerts]].
  assert (Hscan : (k <= (detect_port_scan clk self packet k).2)%nat).
  { unfold detect_port_scan.
    destruct (negb (truthy (dst_port packet))); cbn; [lia |].
    unfold bind. rewrite recent_packets_ages. cbn. lia. }
  destruct (detect_port_scan clk self packet k).1;
    destruct (detect_suspicious_port self packet); lia.
Qed.

(** C9.  For a record whose destination port is absent or 0 the scan
    detector answers false, whatever the window holds, and none of the
    alerts that [analyze_packet] adds for it is a PORT_SCAN alert. *)
Theorem detect_port_scan_without_port self packet k :
  dst_port packet = None \/ dst_port packet = Some 0 ->
  run (detect_port_scan clk self packet) k = false /\
  exists added,
    threat_alerts (run (analyze_packet clk self packet) k)
    = threat_alerts self ++ added /\
    Forall (fun a => threat_type a <> "PORT_SCAN") added.
Proof.
  intros Hport.
  assert (Hscan : detect_port_scan clk self packet k = (false, k)).
  { unfold detect_port_scan. by destruct Hport as [-> | ->]. }
  split; [unfold run; by rewrite Hscan |].
  destruct (analyze_packet_unfold self packet k) as (_ & _ & _ & Halerts).
  cbv zeta in Halerts. rewrite Hscan in Halerts. cbn [fst snd] in Halerts.
  eexists. split; [exact Halerts |].
  cbn [app]. apply Forall_app. split.
  - destruct (detect_suspicious_port self packet);
      repeat constructor; done.
  - match goal with
    | |- context [if ?b then _ else _] => destruct b
    end; repeat constructor; done.
Qed.

(** Ingestion: a packet with an IP layer is stamped with the clock,
    appended to the window, and analysed against that window. *)
Lemma packet_callback_appends self (packet : ScapyPacket)
    (src dst : string) k :
  ip_layer packet = Some (src, dst) ->
  exists record,
    timestamp record = clk k /\ src_ip record = src /\
    packet_buffer (run (packet_callback clk self packet) k)
    = deque_append (packet_buffer self) record.
Proof.
  intros Hip. unfold packet_callback. rewrite Hip.
  unfold run, bind, time_time.
  match goal with
  | |- context [analyze_packet clk ?s ?p (S k)] =>
      destruct (analyze_packet_unfold s p (S k)) as (Hbuf & _);
      exists p
  end.
  unfold run in Hbuf. rewrite Hbuf. cbn [packet_buffer].
  by destruct (layer4 packet).
Qed.

End Detectors.

(** ** Feature extraction *)

Lemma elem_of_sources (buffer : list NetworkPacket) (ip : string) :
  ip ∈ sources buffer <-> exists p, p ∈ buffer /\ src_ip p = ip.
Proof.
  induction buffer as [| q rest IH]; cbn [sources].
  - split; [by intros ?%elem_of_nil | by intros (p & ?%elem_of_nil & _)].
  - rewrite elem_of_cons, list_elem_of_filter, IH. split.
    + intros [-> | [_ (p & Hp & Hsrc)]].
      * exists q. split; [left | done].
      * exists p. split; [by right | done].
    + intros (p & Hp & Hsrc). apply elem_of_cons in Hp as [-> | Hp].
      * by left.
      * destruct (decide (ip = src_ip q)); [by left | right].
        split; [done |]. by exists p.
Qed.

Lemma NoDup_sources (buffer : list NetworkPacket) : NoDup (sources buffer).
Proof.
  induction buffer as [| q rest IH]; cbn [sources]; constructor.
  - rewrite list_elem_of_filter. by intros [? _].
  - by apply NoDup_filter.
Qed.

Lemma sources_snoc (buffer : list NetworkPacket) (p : NetworkPacket) :
  sources (buffer ++ [p])
  = sources buffer
    ++ (if decide (src_ip p ∈ sources buffer) then [] else [src_ip p]).
Proof.
  induction buffer as [| q rest IH].
  - cbn. rewrite decide_False; [done | apply not_elem_of_nil].
  - cbn [app sources]. rewrite IH, filter_app. cbn [app]. f_equal. f_equal.
    destruct (decide (src_ip p = src_ip q)) as [Heq | Hne].
    + rewrite (decide_True (P := src_ip p ∈ src_ip q :: _))
        by (rewrite Heq; left).
      destruct (decide (src_ip p ∈ sources rest)); [done |].
      rewrite filter_cons, decide_False; [done |]. by intros ?.
    + destruct (decide (src_ip p ∈ sources rest)) as [Hin | Hnin].
      * rewrite decide_True; [done |]. right.
        by apply list_elem_of_filter.
      * rewrite decide_False.
        -- by rewrite filter_cons, decide_True.
        -- rewrite elem_of_cons, list_elem_of_filter. intros [? | [_ ?]]; done.
Qed.

Lemma group_of_snoc (buffer : list NetworkPacket) (p : NetworkPacket)
    (ip : string) :
  group_of (buffer ++ [p]) ip
  = group_of buffer ip ++ (if decide (ip = src_ip p) then [p] else []).
Proof.
  unfold group_of. rewrite filter_app. f_equal.
  rewrite filter_cons.
  destruct (decide (ip = src_ip p)) as [-> | Hne].
  - by rewrite decide_True.
  - rewrite decide_False; [done |]. by intros <-.
Qed.

Lemma group_add_keys (keys : list string)
    (G : string -> list NetworkPacket) (p : NetworkPacket) :
  NoDup keys ->
  group_add (map (fun ip => (ip, G ip)) keys) p
  = map (fun ip => (ip, G ip ++ (if decide (ip = src_ip p) then [p] else [])))
        keys
    ++ (if decide (src_ip p ∈ keys) then [] else [(src_ip p, [p])]).
Proof.
  induction keys as [| key keys IH]; intros Hnd.
  - cbn. rewrite decide_False; [done | apply not_elem_of_nil].
  - apply NoDup_cons in Hnd as [Hkey Hnd]. cbn [map group_add].
    destruct (decide (key = src_ip p)) as [Heq | Hne].
    + rewrite (proj2 (String.eqb_eq _ _) Heq).
      rewrite (decide_True (P := src_ip p ∈ key :: keys)) by (rewrite Heq; left).
      rewrite app_nil_r. f_equal. apply map_ext_in. intros ip Hip.
      rewrite decide_False, app_nil_r; [done |].
      intros ->. apply Hkey. rewrite Heq. by apply list_elem_of_In.
    + rewrite (proj2 (String.eqb_neq _ _) Hne). rewrite app_nil_r.
      rewrite (IH Hnd). cbn [app]. f_equal. f_equal.
      destruct (decide (src_ip p ∈ keys)) as [Hin | Hnin].
      * rewrite decide_True; [done | by right].
      * rewrite decide_False; [done |].
        rewrite elem_of_cons. intros [? | ?]; done.
Qed.

(** The dictionary built by the grouping loop: one entry per source, in
    order of first appearance, holding that source's records in window
    order. *)
Lemma ip_groups_by_source (buffer : list NetworkPacket) :
  ip_groups buffer
  = map (fun ip => (ip, group_of buffer ip)) (sources buffer).
Proof.
  unfold ip_groups.
  induction buffer as [| p buffer IH] using rev_ind; [done |].
  rewrite fold_left_app. cbn [fold_left]. rewrite IH.
  rewrite group_add_keys by apply NoDup_sources.
  rewrite sources_snoc, map_app. f_equal.
  - apply map_ext. intros ip. by rewrite group_of_snoc.
  - destruct (decide (src_ip p ∈ sources buffer)) as [Hin | Hnin]; [done |].
    cbn [map]. rewrite group_of_snoc, decide_True by done.
    destruct (group_of buffer (src_ip p)) as [| q l] eqn:Hgroup; [done |].
    exfalso. apply Hnin, elem_of_sources. exists q.
    assert (Hq : q ∈ group_of buffer (src_ip p)) by (rewrite Hgroup; left).
    apply list_elem_of_filter in Hq as [? ?]. done.
Qed.

Lemma fold_max_greatest (l : list Q) (x : Q) :
  let m := fold_left (fun m y => if Qltb m y then y else m) l x in
  In m (x :: l) /\ forall y, In y (x :: l) -> (y <= m)%Q.
Proof.
  revert x. induction l as [| y l IH]; intros x; cbn [fold_left].
  - split; [by left |]. intros y [<- | []]. apply Qle_refl.
  - destruct (IH (if Qltb x y then y else x)) as [Hin Hle].
    set (m := fold_left _ l _) in *.
    assert (Hx : (x <= (if Qltb x y then y else x))%Q /\
                 (y <= (if Qltb x y then y else x))%Q).
    { destruct (Qltb x y) eqn:E.
      - apply Qltb_lt in E. split; [by apply Qlt_le_weak | apply Qle_refl].
      - split; [apply Qle_refl |]. apply Qnot_lt_le. intros H.
        apply Qltb_lt in H. congruence. }
    split.
    + destruct Hin as [Hm | Hm]; [| by right; right].
      rewrite <- Hm. destruct (Qltb x y); [right; by left | by left].
    + intros z [<- | [<- | Hz]].
      * eapply Qle_trans; [apply Hx | apply Hle; by left].
      * eapply Qle_trans; [apply Hx | apply Hle; by left].
      * apply Hle. by right.
Qed.

Lemma fold_min_least (l : list Q) (x : Q) :
  let m := fold_left (fun m y => if Qltb y m then y else m) l x in
  In m (x :: l) /\ forall y, In y (x :: l) -> (m <= y)%Q.
Proof.
  revert x. induction l as [| y l IH]; intros x; cbn [fold_left].
  - split; [by left |]. intros y [<- | []]. apply Qle_refl.
  - destruct (IH (if Qltb y x then y else x)) as [Hin Hle].
    set (m := fold_left _ l _) in *.
    assert (Hx : ((if Qltb y x then y else x) <= x)%Q /\
                 ((if Qltb y x then y else x) <= y)%Q).
    { destruct (Qltb y x) eqn:E.
      - apply Qltb_lt in E. split; [by apply Qlt_le_weak | apply Qle_refl].
      - split; [apply Qle_refl |]. apply Qnot_lt_le. intros H.
        apply Qltb_lt in H. congruence. }
    split.
    + destruct Hin as [Hm | Hm]; [| by right; right].
      rewrite <- Hm. destruct (Qltb y x); [right; by left | by left].
    + intros z [<- | [<- | Hz]].
      * eapply Qle_trans; [apply Hle; by left | apply Hx].
      * eapply Qle_trans; [apply Hle; by left | apply Hx].
      * apply Hle. by right.
Qed.

Lemma py_sum_total_bytes (g : list NetworkPacket) :
  py_sum (map length g) = total_bytes g.
Proof.
  induction g as [| p g IH]; [done |].
  unfold py_sum in *. cbn [map fold_left total_bytes foldr].
  rewrite py_sum_from. unfold py_sum. rewrite IH. unfold total_bytes. lia.
Qed.

Lemma py_max2_one (span : Q) :
  py_max2 1 span = (if decide (1 < span)%Q then span else 1%Q) /\
  (1 <= py_max2 1 span)%Q.
Proof.
  unfold py_max2. rewrite Qltb_decide.
  destruct (decide (1 < span)%Q) as [Hlt | Hge].
  - rewrite bool_decide_eq_true_2 by done. split; [done |].
    by apply Qlt_le_weak.
  - rewrite bool_decide_eq_false_2 by done. split; [done | apply Qle_refl].
Qed.

(** The four features of a group that is not empty. *)
Lemma group_features_vector (g : list NetworkPacket) :
  g <> [] ->
  exists v, group_features g = Some v /\ feature_vector_of nonzero_ports g v.
Proof.
  intros Hne. destruct g as [| p g]; [done |].
  unfold group_features. cbn [map py_max py_min].
  destruct (fold_max_greatest (map timestamp g) (timestamp p)) as [Hhi Hmax].
  destruct (fold_min_least (map timestamp g) (timestamp p)) as [Hlo Hmin].
  set (hi := fold_left (fun m y => if Qltb m y then y else m) _ _) in *.
  set (lo := fold_left (fun m y => if Qltb y m then y else m) _ _) in *.
  destruct (py_max2_one (hi - lo)) as [Hd Hd1].
  eexists. split; [reflexivity |].
  exists hi, lo, (py_max2 1 (hi - lo)).
  split; [exact Hhi |]. split; [exact Hlo |]. split.
  { intros q Hq. split; [apply Hmin | apply Hmax];
      change (timestamp p :: map timestamp g) with (map timestamp (p :: g));
      by apply in_map. }
  split; [exact Hd |]. split; [exact Hd1 |].
  unfold nonzero_ports, protocols.
  rewrite <- truthy_ports_nonzero.
  change (length p :: map length g) with (map length (p :: g)).
  by rewrite py_sum_total_bytes.
Qed.

Lemma features_loop_vectors (groups : list (string * list NetworkPacket))
    (acc : list (list Q)) :
  exists vs,
    features_loop groups acc = Some (acc ++ vs) /\
    Forall2 (feature_vector_of nonzero_ports)
      (filter (fun g => (5 <= List.length g)%nat) (map snd groups)) vs.
Proof.
  revert acc. induction groups as [| [ip g] groups IH]; intros acc.
  - exists []. cbn. by rewrite app_nil_r.
  - cbn [features_loop map snd]. rewrite filter_cons. unfold len.
    destruct (Z.ltb_spec (Z.of_nat (List.length g)) 5) as [Hlt | Hge].
    + rewrite decide_False by lia. apply IH.
    + rewrite decide_True by lia.
      destruct (group_features_vector g) as (v & Hv & Hspec).
      { intros ->. cbn in Hge. lia. }
      rewrite Hv. destruct (IH (acc ++ [v])) as (vs & Hvs & Hall).
      exists (v :: vs). split.
      * rewrite Hvs. by rewrite <- app_assoc.
      * by constructor.
Qed.

(** Feature extraction returns, with one vector per kept group, in order. *)
Lemma extract_features_by_group (buffer : Deque) :
  exists features,
    extract_features buffer = Some features /\
    Forall2 (feature_vector_of nonzero_ports)
      (qualifying_groups (dq_items buffer)) features.
Proof.
  unfold extract_features, qualifying_groups.
  destruct (features_loop_vectors (ip_groups (dq_items buffer)) [])
    as (vs & Hvs & Hall).
  exists vs. split; [exact Hvs |].
  rewrite ip_groups_by_source, map_map in Hall. exact Hall.
Qed.

(** C7, as amended.  Feature extraction always returns; it yields exactly
    one vector for every source address that has at least 5 records in the
    window, in the order in which the sources first appear, and none for the
    other sources.  The vector of a group has four numbers: the group size
    divided by [max(1, hi - lo)], a number that is at least 1, where [hi] and
    [lo] are the greatest and least timestamp of the group; the mean byte
    length; the number of distinct destination ports of the group that are
    present and not 0; the number of distinct protocol tags. *)
Theorem extract_features_vectors (buffer : Deque) :
  exists features,
    extract_features buffer = Some features /\
    List.length features
    = List.length
        (filter (fun ip => (5 <= List.length
                                   (group_of (dq_items buffer) ip))%nat)
           (sources (dq_items buffer))) /\
    Forall (fun v : list Q => List.length v = 4%nat) features /\
    Forall2 (feature_vector_of nonzero_ports)
      (qualifying_groups (dq_items buffer)) features.
Proof.
  destruct (extract_features_by_group buffer) as (features & Hf & Hall).
  exists features. split; [exact Hf |]. split; [| split; [| exact Hall]].
  - rewrite <- (Forall2_length _ _ _ Hall). unfold qualifying_groups.
    generalize (sources (dq_items buffer)). intros ips.
    induction ips as [| ip ips IH]; [done |].
    cbn [map]. rewrite !filter_cons.
    destruct (decide (5 <= List.length (group_of (dq_items buffer) ip))%nat);
      cbn [List.length]; by rewrite IH.
  - clear Hf. induction Hall as [| g v gs vs Hv _ IH]; constructor; [| done].
    by destruct Hv as (hi & lo & d & _ & _ & _ & _ & _ & ->).
Qed.

Lemma length_sources (buffer : list NetworkPacket) :
  (List.length (sources buffer) <= List.length buffer)%nat.
Proof.
  induction buffer as [| p rest IH]; cbn [sources List.length]; [lia |].
  pose proof (length_filter (fun ip => ip <> src_ip p) (sources rest)). lia.
Qed.

(** There are no more feature vectors than records in the window. *)
Lemma extract_features_length (buffer : Deque) (features : list (list Q)) :
  extract_features buffer = Some features ->
  len features <= len (dq_items buffer).
Proof.
  intros Hf. destruct (extract_features_by_group buffer) as (vs & Hvs & Hall).
  rewrite Hf in Hvs. injection Hvs as <-.
  apply Forall2_length in Hall. unfold len. rewrite <- Hall.
  unfold qualifying_groups.
  pose proof (length_filter (fun g => (5 <= List.length g)%nat)
                (map (group_of (dq_items buffer)) (sources (dq_items buffer)))).
  rewrite length_map in H.
  pose proof (length_sources (dq_items buffer)). lia.
Qed.

(** ** The anomaly scorer *)

Section Scorer.

Context (clk : nat -> Q) {Fitted : Type}.
Context (scaler_fit_transform : list (list Q) -> list (list Q)).
Context (forest_fit : list (list Q) -> Fitted).
Context (forest_predict : Fitted -> list (list Q) -> list Z).
Context (forest_decision_function : Fitted -> list (list Q) -> list Q).

Implicit Types (self : WiFiIDS Fitted) (k : nat).

Abbreviation ml_analysis' :=
  (ml_analysis clk scaler_fit_transform forest_fit forest_predict
     forest_decision_function).
Abbreviation step' :=
  (step clk scaler_fit_transform forest_fit forest_predict
     forest_decision_function).
Abbreviation run_events' :=
  (run_events clk scaler_fit_transform forest_fit forest_predict
     forest_decision_function).

(** The alert loop leaves the window, the model and the trace alone, and
    every alert it adds is an ANOMALY alert of severity MEDIUM. *)
Lemma anomaly_loop_frame (rows : list (Z * Q)) self (n i : Z) k :
  let after := run (anomaly_loop clk self n i rows) k in
  packet_buffer after = packet_buffer self /\
  ml_model after = ml_model self /\
  sk_calls after = sk_calls self /\
  exists added,
    threat_alerts after = threat_alerts self ++ added /\
    Forall (fun a => threat_type a = "ANOMALY" /\ severity a = "MEDIUM")
      added.
Proof.
  cbv zeta. revert self i k.
  induction rows as [| [label score] rows IH]; intros self i k.
  - repeat split; try done. exists []. by rewrite app_nil_r.
  - cbn [anomaly_loop]. destruct (label =? -1); [| apply IH].
    destruct (py_index _ _) as [packet |].
    + unfold run, bind. rewrite create_threat_alert_run.
      match goal with
      | |- context [anomaly_loop clk ?s n (i + 1) rows (S k)] =>
          destruct (IH s (i + 1) (S k)) as (Hb & Hm & Hc & added & Ha & Hall)
      end.
      unfold run in *. cbn [packet_buffer ml_model sk_calls threat_alerts]
        in Hb, Hm, Hc, Ha.
      repeat split; try done.
      eexists (_ :: added). rewrite Ha, <- app_assoc. split; [done |].
      by constructor.
    + repeat split; try done. exists []. by rewrite app_nil_r.
Qed.

(** The alerts of the loop depend on the window and on the alerts made
    before, not on the rest of the state. *)
Lemma anomaly_loop_same_alerts (rows : list (Z * Q)) self self'
    (n i : Z) k :
  packet_buffer self = packet_buffer self' ->
  threat_alerts self = threat_alerts self' ->
  threat_alerts (run (anomaly_loop clk self n i rows) k)
  = threat_alerts (run (anomaly_loop clk self' n i rows) k).
Proof.
  revert self self' i k.
  induction rows as [| [label score] rows IH]; intros self self' i k Hb Ha;
    [done |].
  cbn [anomaly_loop]. destruct (label =? -1); [| by apply IH].
  rewrite Hb. destruct (py_index _ _) as [packet |]; [| done].
  unfold run, bind. rewrite !create_threat_alert_run.
  apply IH; cbn [packet_buffer threat_alerts]; [done | by rewrite Ha].
Qed.

(** What the alert loop emits when every index is in range: one alert per
    outlier row, in order, with the absolute score as confidence, and with
    the source address of the window record at position
    [len(window) - (n - i)] for the row of index [i]. *)
Lemma anomaly_loop_alerts (rows : list (Z * Q)) self (n i : Z) k :
  0 <= i -> i + len rows <= n ->
  n <= len (dq_items (packet_buffer self)) ->
  exists added,
    threat_alerts (run (anomaly_loop clk self n i rows) k)
    = threat_alerts self ++ added /\
    Forall2
      (fun (row : Z * Q) a =>
         exists t packet,
           dq_items (packet_buffer self)
             !! Z.to_nat (len (dq_items (packet_buffer self)) - (n - row.1))
           = Some packet /\
           a = alert t "ANOMALY" "MEDIUM" (src_ip packet)
                 ("Anomalous network behavior detected from "
                  +:+ src_ip packet) (Qabs row.2))
      (outliers i rows) added.
Proof.
  revert self i k.
  induction rows as [| [label score] rows IH]; intros self i k Hi Hn Hlen.
  - exists []. cbn. by rewrite app_nil_r.
  - cbn [anomaly_loop outliers]. unfold len in Hn. cbn [List.length] in Hn.
    assert (Hn' : i + 1 + len rows <= n) by (unfold len; lia).
    destruct (Z.eqb_spec label (-1)) as [-> | Hlabel].
    + rewrite decide_True by done. unfold py_index.
      destruct (Z.ltb_spec (- (n - i)) 0) as [_ | ?]; [| lia].
      destruct (Z.ltb_spec (len (dq_items (packet_buffer self)) + - (n - i)) 0)
        as [? | _]; [lia |].
      destruct (lookup_lt_is_Some_2 (dq_items (packet_buffer self))
                  (Z.to_nat (len (dq_items (packet_buffer self)) + - (n - i))))
        as [packet Hpacket].
      { unfold len in *. lia. }
      rewrite Hpacket. unfold run, bind. rewrite create_threat_alert_run.
      match goal with
      | |- context [anomaly_loop clk ?s n (i + 1) rows (S k)] =>
          destruct (IH s (i + 1) (S k)) as (added & Ha & Hall);
            [lia | done | done |]
      end.
      unfold run in Ha. cbn [packet_buffer threat_alerts] in Ha, Hall.
      eexists (_ :: added). rewrite Ha, <- app_assoc. split; [done |].
      constructor; [| done]. exists (clk k), packet. split; [| done].
      cbn [fst]. rewrite <- Hpacket. f_equal; lia.
    + rewrite decide_False by done. apply IH; [lia | done | done].
Qed.

Lemma fit_calls_snoc (calls : list SkCall) (c : SkCall) :
  fit_calls (calls ++ [c])
  = fit_calls calls
    ++ match c with ForestFit X => [X] | _ => [] end.
Proof.
  unfold fit_calls. rewrite omap_app. f_equal. by destruct c.
Qed.

Lemma ml_analysis_small self k (features : list (list Q)) :
  extract_features (packet_buffer self) = Some features ->
  len features < 10 ->
  ml_analysis' self k = (self, k).
Proof.
  intros Hf Hlt. unfold ml_analysis. rewrite Hf.
  by rewrite (proj2 (Z.ltb_lt _ _) Hlt).
Qed.

Lemma ml_analysis_first_fit self k (features : list (list Q)) :
  extract_features (packet_buffer self) = Some features ->
  10 <= len features ->
  ml_model self = None ->
  ml_analysis' self k
  = (set_model
       (log_call (log_call self (ScalerFitTransform features))
          (ForestFit (scaler_fit_transform features)))
       (forest_fit (scaler_fit_transform features)), k).
Proof.
  intros Hf Hge Hm. unfold ml_analysis. rewrite Hf.
  rewrite (proj2 (Z.ltb_ge _ _) Hge). cbn [log_call ml_model].
  by rewrite Hm.
Qed.

Lemma ml_analysis_scores self k (features : list (list Q)) (m : Fitted) :
  extract_features (packet_buffer self) = Some features ->
  10 <= len features ->
  ml_model self = Some m ->
  ml_analysis' self k
  = anomaly_loop clk
      (log_call
         (log_call (log_call self (ScalerFitTransform features))
            (ForestPredict (scaler_fit_transform features)))
         (ForestDecisionFunction (scaler_fit_transform features)))
      (len features) 0
      (zip (forest_predict m (scaler_fit_transform features))
           (forest_decision_function m (scaler_fit_transform features)))
      k.
Proof.
  intros Hf Hge Hm. unfold ml_analysis. rewrite Hf.
  rewrite (proj2 (Z.ltb_ge _ _) Hge). cbn [log_call ml_model].
  by rewrite Hm.
Qed.

(** A fitted model survives every analysis, and no analysis fits again. *)
Lemma ml_analysis_trained self k (m : Fitted) :
  ml_model self = Some m ->
  ml_model (run (ml_analysis' self) k) = Some m /\
  fit_calls (sk_calls (run (ml_analysis' self) k))
  = fit_calls (sk_calls self).
Proof.
  intros Hm.
  destruct (extract_features_by_group (packet_buffer self))
    as (features & Hf & _).
  unfold run.
  destruct (Z.lt_ge_cases (len features) 10) as [Hlt | Hge].
  - by rewrite (ml_analysis_small self k features).
  - rewrite (ml_analysis_scores self k features m) by done.
    match goal with
    | |- context [anomaly_loop clk ?s ?n ?i ?rows k] =>
        destruct (anomaly_loop_frame rows s n i k) as (_ & Hm' & Hc & _)
    end.
    unfold run in Hm', Hc. rewrite Hm', Hc. cbn [log_call ml_model sk_calls]. split; [done |].
    rewrite !fit_calls_snoc. by rewrite !app_nil_r.
Qed.

(** The alerts of a scoring analysis, for a learner that labels no more
    rows than it is given: one ANOMALY alert of severity MEDIUM per
    outlier row, with the absolute score as confidence; the source
    address is that of the window record [n - i] places from the right
    end, for [n] vectors and the row of index [i]. *)
Lemma ml_analysis_scored_alerts self k (features : list (list Q))
    (m : Fitted) :
  extract_features (packet_buffer self) = Some features ->
  10 <= len features ->
  ml_model self = Some m ->
  len (forest_predict m (scaler_fit_transform features)) <= len features ->
  exists added,
    threat_alerts (run (ml_analysis' self) k) = threat_alerts self ++ added /\
    Forall2
      (fun (row : Z * Q) a =>
         exists t packet,
           dq_items (packet_buffer self)
             !! Z.to_nat (len (dq_items (packet_buffer self))
                          - (len features - row.1))
           = Some packet /\
           a = alert t "ANOMALY" "MEDIUM" (src_ip packet)
                 ("Anomalous network behavior detected from "
                  +:+ src_ip packet) (Qabs row.2))
      (outliers 0
         (zip (forest_predict m (scaler_fit_transform features))
              (forest_decision_function m (scaler_fit_transform features))))
      added.
Proof.
  intros Hf Hge Hm Hlabels. unfold run.
  rewrite (ml_analysis_scores self k features m) by done.
  match goal with
  | |- context [anomaly_loop clk ?s ?n ?i ?rows k] =>
      destruct (anomaly_loop_alerts rows s n i k) as (added & Ha & Hall)
  end.
  - lia.
  - unfold len in *. rewrite length_zip. lia.
  - cbn [log_call packet_buffer]. by apply extract_features_length.
  - exists added. split; [exact Ha | exact Hall].
Qed.

(** A turn of the analysis thread: nothing on a window of at most 100
    records, otherwise [ml_analysis] followed by the clock read of
    [update_statistics]. *)
Lemma analysis_cycle_run self k :
  analysis_cycle clk scaler_fit_transform forest_fit forest_predict
    forest_decision_function self k
  = if 100 <? len (dq_items (packet_buffer self))
    then ((ml_analysis' self k).1, S (ml_analysis' self k).2)
    else (self, k).
Proof.
  unfold analysis_cycle. destruct (100 <? _); [| done].
  unfold bind, update_statistics, time_time, ret.
  by destruct (ml_analysis' self k).
Qed.

Lemma step_trained (e : Event) self k (m : Fitted) :
  ml_model self = Some m ->
  ml_model (run (step' self e) k) = Some m /\
  fit_calls (sk_calls (run (step' self e) k)) = fit_calls (sk_calls self).
Proof.
  intros Hm. destruct e as [packet | |]; cbn [step].
  - unfold packet_callback. destruct (ip_layer packet) as [[src dst] |];
      [| done].
    unfold run, bind, time_time.
    match goal with
    | |- context [analyze_packet clk ?s ?p (S k)] =>
        destruct (analyze_packet_unfold clk s p (S k)) as (_ & Hm' & Hc & _)
    end.
    unfold run in Hm', Hc. by rewrite Hm', Hc.
  - unfold run. rewrite analysis_cycle_run. destruct (100 <? _); [| done].
    by apply ml_analysis_trained.
  - by apply ml_analysis_trained.
Qed.

Lemma run_events_cons self (e : Event) (es : list Event) k :
  run (run_events' self (e :: es)) k
  = run (run_events' (step' self e k).1 es) (step' self e k).2.
Proof.
  unfold run. cbn [run_events]. unfold bind.
  by destruct (step' self e k).
Qed.

Lemma run_events_trained (es : list Event) self k (m : Fitted) :
  ml_model self = Some m ->
  ml_model (run (run_events' self es) k) = Some m /\
  fit_calls (sk_calls (run (run_events' self es) k))
  = fit_calls (sk_calls self).
Proof.
  revert self k. induction es as [| e es IH]; intros self k Hm; [done |].
  rewrite run_events_cons.
  destruct (step_trained e self k m Hm) as [Hm' Hc']. unfold run in Hm', Hc'.
  destruct (IH _ (step' self e k).2 Hm') as [Hm'' Hc''].
  split; [done |]. by rewrite Hc''.
Qed.

(** An untrained engine either stays untrained without fitting, or fits
    exactly once. *)
Lemma step_untrained (e : Event) self k :
  ml_model self = None ->
  (ml_model (run (step' self e) k) = None /\
   fit_calls (sk_calls (run (step' self e) k)) = fit_calls (sk_calls self))
  \/ (exists X,
        ml_model (run (step' self e) k) = Some (forest_fit X) /\
        fit_calls (sk_calls (run (step' self e) k))
        = fit_calls (sk_calls self) ++ [X]).
Proof.
  intros Hm.
  assert (Hml : (ml_model (run (ml_analysis' self) k) = None /\
                 fit_calls (sk_calls (run (ml_analysis' self) k))
                 = fit_calls (sk_calls self))
                \/ (exists X,
                      ml_model (run (ml_analysis' self) k)
                      = Some (forest_fit X) /\
                      fit_calls (sk_calls (run (ml_analysis' self) k))
                      = fit_calls (sk_calls self) ++ [X])).
  { destruct (extract_features_by_group (packet_buffer self))
      as (features & Hf & _).
    unfold run.
    destruct (Z.lt_ge_cases (len features) 10) as [Hlt | Hge].
    - left. by rewrite (ml_analysis_small self k features).
    - right. rewrite (ml_analysis_first_fit self k features) by done.
      exists (scaler_fit_transform features).
      cbn [fst set_model log_call ml_model sk_calls]. split; [done |].
      rewrite !fit_calls_snoc. by rewrite app_nil_r. }
  destruct e as [packet | |]; cbn [step].
  - left. unfold packet_callback.
    destruct (ip_layer packet) as [[src dst] |]; [| done].
    unfold run, bind, time_time.
    match goal with
    | |- context [analyze_packet clk ?s ?p (S k)] =>
        destruct (analyze_packet_unfold clk s p (S k)) as (_ & Hm' & Hc & _)
    end.
    unfold run in Hm', Hc. by rewrite Hm', Hc.
  - unfold run. rewrite analysis_cycle_run.
    destruct (100 <? _); [exact Hml | by left].
  - exact Hml.
Qed.

Lemma run_events_untrained (es : list Event) self k :
  ml_model self = None ->
  (ml_model (run (run_events' self es) k) = None /\
   fit_calls (sk_calls (run (run_events' self es) k))
   = fit_calls (sk_calls self))
  \/ (exists X,
        ml_model (run (run_events' self es) k) = Some (forest_fit X) /\
        fit_calls (sk_calls (run (run_events' self es) k))
        = fit_calls (sk_calls self) ++ [X]).
Proof.
  revert self k. induction es as [| e es IH]; intros self k Hm.
  - by left.
  - rewrite run_events_cons.
    destruct (step_untrained e self k Hm)
      as [[Hm' Hc'] | (X & Hm' & Hc')]; unfold run in Hm', Hc'.
    + destruct (IH _ (step' self e k).2 Hm')
        as [[Hm'' Hc''] | (X & Hm'' & Hc'')].
      * left. split; [done |]. by rewrite Hc'', Hc'.
      * right. exists X. split; [done |]. by rewrite Hc'', Hc'.
    + right. exists X.
      destruct (run_events_trained es _ (step' self e k).2 _ Hm')
        as [Hm'' Hc''].
      split; [done |]. by rewrite Hc'', Hc'.
Qed.

(** C8.  One analysis, by the number of feature vectors and the state of
    the scorer: with fewer than 10 vectors nothing changes (no call into
    the learner, no alert); with at least 10 vectors and no fitted model,
    the batch is standardized, the model is fit on it, and no alert is
    added; with at least 10 vectors and a fitted model [m], the batch is
    standardized and scored by [m], which stays in place, and no fit is
    made.  Over any run of packets and analyses a fitted model is never
    replaced and never refit, and an engine that starts untrained fits at
    most once. *)
Theorem ml_analysis_trains_once self k :
  exists features,
    extract_features (packet_buffer self) = Some features /\
    let scaled := scaler_fit_transform features in
    let after := run (ml_analysis' self) k in
    (len features < 10 -> after = self) /\
    (10 <= len features -> ml_model self = None ->
       ml_model after = Some (forest_fit scaled) /\
       sk_calls after
       = sk_calls self ++ [ScalerFitTransform features; ForestFit scaled] /\
       threat_alerts after = threat_alerts self) /\
    (10 <= len features -> forall m, ml_model self = Some m ->
       ml_model after = Some m /\
       sk_calls after
       = sk_calls self ++ [ScalerFitTransform features;
                           ForestPredict scaled;
                           ForestDecisionFunction scaled] /\
       exists added,
         threat_alerts after = threat_alerts self ++ added /\
         threat_alerts after
         = threat_alerts
             (run (anomaly_loop clk self (len features) 0
                     (zip (forest_predict m scaled)
                          (forest_decision_function m scaled))) k)) /\
    (forall (es : list Event) m k', ml_model self = Some m ->
       ml_model (run (run_events' self es) k') = Some m /\
       fit_calls (sk_calls (run (run_events' self es) k'))
       = fit_calls (sk_calls self)) /\
    (forall (es : list Event) k', ml_model self = None ->
       (ml_model (run (run_events' self es) k') = None /\
        fit_calls (sk_calls (run (run_events' self es) k'))
        = fit_calls (sk_calls self))
       \/ (exists X,
             ml_model (run (run_events' self es) k') = Some (forest_fit X) /\
             fit_calls (sk_calls (run (run_events' self es) k'))
             = fit_calls (sk_calls self) ++ [X])).
Proof.
  destruct (extract_features_by_group (packet_buffer self))
    as (features & Hf & _).
  exists features. split; [exact Hf |]. cbv zeta. unfold run at 1 2 3 4 5 6 7 8.
  split; [| split; [| split; [| split]]].
  - intros Hlt. by rewrite (ml_analysis_small self k features).
  - intros Hge Hm. rewrite (ml_analysis_first_fit self k features) by done.
    cbn [fst set_model log_call ml_model sk_calls threat_alerts].
    by rewrite <- app_assoc.
  - intros Hge m Hm. rewrite (ml_analysis_scores self k features m) by done.
    match goal with
    | |- context [anomaly_loop clk ?s ?n ?i ?rows k] =>
        destruct (anomaly_loop_frame rows s n i k)
          as (_ & Hm' & Hc & added & Ha & _);
        pose proof (anomaly_loop_same_alerts rows s self n i k eq_refl eq_refl)
          as Hsame
    end.
    unfold run in *. rewrite Hm', Hc.
    cbn [log_call ml_model sk_calls threat_alerts] in *.
    split; [done |]. split; [by rewrite <- !app_assoc |].
    exists added. split; [done |]. exact Hsame.
  - intros es m k' Hm. by apply run_events_trained.
  - intros es k' Hm. by apply run_events_untrained.
Qed.

End Scorer.

(** ** The theorems on sample traffic *)

Lemma detect_ddos_fires_iff_witness :
  run (detect_ddos ticking_clock (engine (burst 25 scanner 101) None)
         (window_packet 25 scanner 101)) 0 = true /\
  run (detect_ddos ticking_clock (engine (burst 25 scanner 100) None)
         (window_packet 25 scanner 100)) 0 = false.
Proof.
  split.
  - apply (detect_ddos_fires_iff ticking_clock
             (engine (burst 25 scanner 101) None)
             (window_packet 25 scanner 101) 0).
    vm_compute. reflexivity.
  - apply (detect_ddos_fires_iff ticking_clock
             (engine (burst 25 scanner 100) None)
             (window_packet 25 scanner 100) 0).
    vm_compute. reflexivity.
Defined.

Lemma detect_port_scan_fires_iff_witness :
  run (detect_port_scan ticking_clock (engine (burst 0 scanner 21) None)
         (window_packet 0 scanner 21)) 0 = true /\
  run (detect_port_scan ticking_clock (engine (burst 0 scanner 20) None)
         (window_packet 0 scanner 20)) 0 = false /\
  run (detect_port_scan ticking_clock
         (engine (burst 0 scanner 21 ++ [ping 0 scanner]) None)
         (ping 0 scanner)) 0 = false.
Proof.
  split; [| split].
  - apply (detect_port_scan_fires_iff ticking_clock
             (engine (burst 0 scanner 21) None)
             (window_packet 0 scanner 21) 0).
    + exists 21. split; [reflexivity | lia].
    + vm_compute. reflexivity.
  - destruct (detect_port_scan_fires_iff ticking_clock
                (engine (burst 0 scanner 20) None)
                (window_packet 0 scanner 20) 0) as [Hport _].
    destruct Hport as (_ & _ & Htwenty);
      [exists 20; split; [reflexivity | lia] |].
    apply Htwenty. vm_compute. reflexivity.
  - apply (detect_port_scan_fires_iff ticking_clock
             (engine (burst 0 scanner 21 ++ [ping 0 scanner]) None)
             (ping 0 scanner) 0).
    left. reflexivity.
Defined.

(** C3 as stated fails: the ingested record is an ICMP record of a source
    whose 21 records of the last minute go to 21 distinct ports; the set of
    destination ports has more than 20 members, and the detector does not
    fire. *)
Lemma detect_port_scan_claim_fails :
  ~ (run (detect_port_scan ticking_clock
            (engine (burst 0 scanner 21 ++ [ping 0 scanner]) None)
            (ping 0 scanner)) 0 = true
     <-> (20 < size (present_ports
                       (younger_than 60
                          (ages ticking_clock (src_ip (ping 0 scanner))
                             (burst 0 scanner 21 ++ [ping 0 scanner]) 0))))%nat).
Proof.
  intros [_ Hfire].
  assert (Hsize : size (present_ports
                          (younger_than 60
                             (ages ticking_clock (src_ip (ping 0 scanner))
                                (burst 0 scanner 21 ++ [ping 0 scanner]) 0)))
                  = 21%nat) by (vm_compute; reflexivity).
  rewrite Hsize in Hfire. specialize (Hfire ltac:(lia)).
  vm_compute in Hfire. discriminate Hfire.
Qed.

Lemma detect_suspicious_port_iff_witness :
  detect_suspicious_port (engine [] None) (window_packet 0 scanner 3389)
  = true /\
  detect_suspicious_port (engine (burst 0 scanner 21) None)
    (window_packet 7 "10.0.0.1" 3389)
  = detect_suspicious_port (engine [] None) (window_packet 0 scanner 3389) /\
  detect_suspicious_port (engine [] None) (ping 0 scanner) = false.
Proof.
  destruct (detect_suspicious_port_iff (engine [] None)
              (window_packet 0 scanner 3389)) as (Hiff & Hsame & _).
  split; [| split].
  - apply Hiff. exists 3389. split; [reflexivity |]. cbn [In]. tauto.
  - apply Hsame. reflexivity.
  - apply (detect_suspicious_port_iff (engine [] None) (ping 0 scanner)).
    reflexivity.
Defined.

Lemma detect_port_scan_without_port_witness :
  (20 < size (present_ports (burst 0 scanner 21 ++ [ping 0 scanner])))%nat /\
  run (detect_port_scan ticking_clock
         (engine (burst 0 scanner 21 ++ [ping 0 scanner]) None)
         (ping 0 scanner)) 0 = false.
Proof.
  split; [vm_compute; lia |].
  apply (detect_port_scan_without_port ticking_clock
           (engine (burst 0 scanner 21 ++ [ping 0 scanner]) None)
           (ping 0 scanner) 0).
  left. reflexivity.
Defined.

(** All three detectors fire on one record: the 101st record of a source
    that went to 100 distinct ports in the last seconds, sent to port 22. *)
Lemma analyze_packet_three_alerts :
  map (fun a => (threat_type a, severity a, confidence a))
      (threat_alerts
         (run (analyze_packet ticking_clock
                 (engine (burst 25 scanner 100 ++ [window_packet 25 scanner 22])
                    None)
                 (window_packet 25 scanner 22)) 0))
  = [("PORT_SCAN", "HIGH", 8 # 10); ("SUSPICIOUS_PORT", "MEDIUM", 6 # 10);
     ("DDOS", "CRITICAL", 9 # 10)].
Proof. vm_compute. reflexivity. Qed.

(** C7 as stated fails: for five records of one source to destination port
    0, the group carries one distinct destination port, and the third
    feature is 0. *)
Lemma extract_features_port_zero_not_counted :
  ~ (exists features,
       extract_features zero_port_window = Some features /\
       Forall2 (feature_vector_of present_ports)
         (qualifying_groups (dq_items zero_port_window)) features).
Proof.
  intros (features & Hf & Hall).
  assert (Hcode : extract_features zero_port_window
                  = Some [[5%Q; (300 # 5)%Q; 0%Q; 1%Q]])
    by (vm_compute; reflexivity).
  rewrite Hcode in Hf. injection Hf as <-.
  assert (Hgroups : qualifying_groups (dq_items zero_port_window)
                    = [dq_items zero_port_window])
    by (vm_compute; reflexivity).
  rewrite Hgroups in Hall.
  apply Forall2_cons_1 in Hall as [(hi & lo & d & _ & _ & _ & _ & _ & Hv) _].
  apply (f_equal (fun v : list Q => v !! 2%nat)) in Hv.
  vm_compute in Hv. discriminate Hv.
Qed.

Lemma ml_analysis_trains_once_witness :
  exists features,
    extract_features (packet_buffer (engine ten_sources_window None))
    = Some features /\
    len features = 10 /\
    ml_model
      (run (ml_analysis ticking_clock sample_scaler sample_fit sample_predict
              sample_scores (engine ten_sources_window None)) 0)
    = Some (sample_fit (sample_scaler features)) /\
    threat_alerts
      (run (ml_analysis ticking_clock sample_scaler sample_fit sample_predict
              sample_scores (engine ten_sources_window None)) 0)
    = [] /\
    ml_model
      (run (ml_analysis ticking_clock sample_scaler sample_fit sample_predict
              sample_scores (engine ten_sources_window (Some features))) 0)
    = Some features.
Proof.
  destruct (ml_analysis_trains_once ticking_clock sample_scaler sample_fit
              sample_predict sample_scores (engine ten_sources_window None) 0)
    as (features & Hf & _ & Hfit & _).
  destruct (ml_analysis_trains_once ticking_clock sample_scaler sample_fit
              sample_predict sample_scores
              (engine ten_sources_window (Some features)) 0)
    as (features' & Hf' & _ & _ & Hscore & _).
  assert (Hsame : features' = features).
  { cbn [engine packet_buffer] in Hf, Hf'. rewrite Hf in Hf'.
    by injection Hf'. }
  subst features'.
  assert (Hlen : len features = 10).
  { vm_compute in Hf. injection Hf as <-. reflexivity. }
  exists features. split; [exact Hf |]. split; [exact Hlen |].
  destruct (Hfit ltac:(lia) eq_refl) as (Hmodel & _ & Halerts).
  destruct (Hscore ltac:(lia) features eq_refl) as (Hkept & _).
  split; [exact Hmodel |]. split; [exact Halerts | exact Hkept].
Defined.

(** C1, on the code.  The window holds five records of each of ten sources,
    source after source; the scorer is trained and labels vector 0 as the
    only outlier, with score [-1/4].  Vector 0 is the vector of the group
    of source 10.0.0.0.  One alert is emitted, of kind ANOMALY, severity
    MEDIUM and confidence [1/4], and its source address is 10.0.0.8: the
    source of the window record at position [50 - 10 + 0], not the source
    of the group. *)
Theorem ml_analysis_alert_source_is_tail_record :
  let self := engine ten_sources_window (Some []) in
  let after :=
    run (ml_analysis ticking_clock sample_scaler sample_fit sample_predict
           sample_scores self) 0 in
  (exists features,
     extract_features (packet_buffer self) = Some features /\
     len features = 10 /\
     outliers 0 (zip (sample_predict [] (sample_scaler features))
                     (sample_scores [] (sample_scaler features)))
     = [(0, (- (1 # 4))%Q)]) /\
  qualifying_groups ten_sources_window !! 0%nat
  = Some (group_of ten_sources_window "10.0.0.0") /\
  map src_ip (group_of ten_sources_window "10.0.0.0")
  = ["10.0.0.0"; "10.0.0.0"; "10.0.0.0"; "10.0.0.0"; "10.0.0.0"] /\
  threat_alerts after
  = [alert (ticking_clock 0) "ANOMALY" "MEDIUM" "10.0.0.8"
       "Anomalous network behavior detected from 10.0.0.8" (1 # 4)].
Proof.
  cbv zeta. split; [| split; [| split]].
  - eexists. split; [vm_compute; reflexivity |]. split; vm_compute; reflexivity.
  - vm_compute. reflexivity.
  - vm_compute. reflexivity.
  - vm_compute. reflexivity.
Qed.

(** ** The rolling window over many appends *)

Lemma deque_append_maxlen (d : Deque) (x : NetworkPacket) :
  dq_maxlen (deque_append d x) = dq_maxlen d.
Proof. reflexivity. Qed.

Lemma deque_append_drop (d : Deque) (x : NetworkPacket) :
  (List.length (dq_items d) <= dq_maxlen d)%nat ->
  dq_items (deque_append d x)
  = drop (List.length (dq_items d ++ [x]) - dq_maxlen d) (dq_items d ++ [x]).
Proof.
  intros Hlen. unfold deque_append. cbn [dq_items dq_maxlen].
  rewrite length_app. cbn [List.length].
  destruct (Nat.ltb_spec (dq_maxlen d) (List.length (dq_items d) + 1))
    as [Hfull | Hroom].
  - replace (List.length (dq_items d) + 1 - dq_maxlen d)%nat with 1%nat by lia.
    by destruct (dq_items d).
  - replace (List.length (dq_items d) + 1 - dq_maxlen d)%nat with 0%nat by lia.
    done.
Qed.

Lemma deque_appends_drop (d : Deque) (xs : list NetworkPacket) :
  (List.length (dq_items d) <= dq_maxlen d)%nat ->
  dq_items (fold_left deque_append xs d)
  = drop (List.length (dq_items d ++ xs) - dq_maxlen d) (dq_items d ++ xs) /\
  dq_maxlen (fold_left deque_append xs d) = dq_maxlen d.
Proof.
  intros Hlen. induction xs as [| x xs IH] using rev_ind.
  - cbn [fold_left]. rewrite app_nil_r.
    replace (List.length (dq_items d) - dq_maxlen d)%nat with 0%nat by lia.
    done.
  - destruct IH as [IHitems IHmax].
    rewrite fold_left_app. cbn [fold_left].
    rewrite deque_append_maxlen. split; [| exact IHmax].
    rewrite deque_append_drop.
    + rewrite IHmax, IHitems, !length_app, length_drop, length_app.
      cbn [List.length]. rewrite app_assoc.
      set (L := dq_items d ++ xs).
      assert (HL : List.length L
                   = (List.length (dq_items d) + List.length xs)%nat)
        by (subst L; apply length_app).
      rewrite <- HL.
      destruct (Nat.le_gt_cases (dq_maxlen d) (List.length L))
        as [Hfull | Hroom].
      * rewrite <- (drop_app_le L [x]) by lia. rewrite drop_drop.
        f_equal. lia.
      * replace (List.length L - dq_maxlen d)%nat with 0%nat by lia.
        cbn [drop]. f_equal. lia.
    + rewrite IHmax, IHitems, length_drop. lia.
Qed.


(** ** What one step of the engine changes *)

Section Frame.

Context (clk : nat -> Q) {Fitted : Type}.
Context (scaler_fit_transform : list (list Q) -> list (list Q)).
Context (forest_fit : list (list Q) -> Fitted).
Context (forest_predict : Fitted -> list (list Q) -> list Z).
Context (forest_decision_function : Fitted -> list (list Q) -> list Q).

Implicit Types (self after : WiFiIDS Fitted) (k : nat).

Abbreviation ml_analysis' :=
  (ml_analysis clk scaler_fit_transform forest_fit forest_predict
     forest_decision_function).
Abbreviation step' :=
  (step clk scaler_fit_transform forest_fit forest_predict
     forest_decision_function).
Abbreviation run_events' :=
  (run_events clk scaler_fit_transform forest_fit forest_predict
     forest_decision_function).

Lemma emits_refl self k : emits clk self self k k.
Proof.
  split; [lia |]. exists [], []. rewrite app_nil_r. cbn [map].
  split; [done |]. split; [set_solver |]. split; [done |].
  split; constructor.
Qed.

Lemma emits_idle self k k' : (k <= k')%nat -> emits clk self self k k'.
Proof.
  intros Hk. split; [done |]. exists [], []. rewrite app_nil_r. cbn [map].
  split; [done |]. split; [set_solver |]. split; [done |].
  split; constructor.
Qed.

Lemma emits_trans self mid after k k' k'' :
  emits clk self mid k k' -> emits clk mid after k' k'' ->
  emits clk self after k k''.
Proof.
  intros (Hk & added & reads & Ha & Hs & Ht & Hsorted & Hall)
         (Hk' & added' & reads' & Ha' & Hs' & Ht' & Hsorted' & Hall').
  split; [lia |]. exists (added ++ added'), (reads ++ reads').
  rewrite Ha', Ha, Hs', Hs, !map_app, <- app_assoc, Ht, Ht'.
  split; [done |]. split; [set_solver |]. split; [done |]. split.
  - apply StronglySorted_app_2; [| done | done].
    intros j j' Hj Hj'. rewrite Forall_forall in Hall, Hall'.
    specialize (Hall j Hj). specialize (Hall' j' Hj'). lia.
  - apply Forall_app. split.
    + eapply Forall_impl; [exact Hall |]. intros j Hj. cbn in Hj. lia.
    + eapply Forall_impl; [exact Hall' |]. intros j Hj. cbn in Hj. lia.
Qed.

Lemma emits_widen self after k0 k k' :
  (k0 <= k)%nat -> emits clk self after k k' -> emits clk self after k0 k'.
Proof.
  intros Hk0 (Hk & added & reads & Ha & Hs & Ht & Hsorted & Hall).
  split; [lia |]. exists added, reads. do 4 (split; [done |]).
  eapply Forall_impl; [exact Hall |]. intros j Hj. cbn in Hj. lia.
Qed.

Lemma only_alerts_refl self k : only_alerts clk self self k k.
Proof. do 4 (split; [done |]). apply emits_refl. Qed.

Lemma only_alerts_trans self mid after k k' k'' :
  only_alerts clk self mid k k' -> only_alerts clk mid after k' k'' ->
  only_alerts clk self after k k''.
Proof.
  intros (Hb & Ht & Hm & Hc & He) (Hb' & Ht' & Hm' & Hc' & He').
  do 4 (split; [congruence |]). by eapply emits_trans.
Qed.

Lemma only_alerts_widen self after k0 k k' :
  (k0 <= k)%nat -> only_alerts clk self after k k' ->
  only_alerts clk self after k0 k'.
Proof.
  intros Hk0 (Hb & Ht & Hm & Hc & He).
  do 4 (split; [done |]). by eapply emits_widen.
Qed.

Lemma create_threat_alert_only_alerts self (kind sev ip desc : string)
    (conf : Q) k :
  only_alerts clk self
    (create_threat_alert clk self kind sev ip desc conf k).1 k
    (create_threat_alert clk self kind sev ip desc conf k).2.
Proof.
  rewrite create_threat_alert_run. cbn [fst snd].
  do 4 (split; [done |]). split; [lia |].
  exists [alert (clk k) kind sev ip desc conf], [k].
  cbn [threat_alerts suspicious_ips map source_ip alert alert_timestamp].
  split; [done |]. split; [set_solver |]. split; [done |].
  split; repeat constructor; lia.
Qed.

Lemma maybe_alert_only_alerts (b : bool) self
    (kind sev ip desc : string) (conf : Q) k :
  only_alerts clk self
    ((if b then create_threat_alert clk self kind sev ip desc conf
      else ret self) k).1 k
    ((if b then create_threat_alert clk self kind sev ip desc conf
      else ret self) k).2.
Proof.
  destruct b; [apply create_threat_alert_only_alerts |].
  apply only_alerts_refl.
Qed.

Lemma detect_port_scan_reads self packet k :
  (k <= (detect_port_scan clk self packet k).2)%nat.
Proof.
  unfold detect_port_scan.
  destruct (negb (truthy (dst_port packet))); cbn; [lia |].
  unfold bind. rewrite recent_packets_ages. cbn. lia.
Qed.

Lemma detect_ddos_reads self packet k :
  (k <= (detect_ddos clk self packet k).2)%nat.
Proof.
  unfold detect_ddos, bind. rewrite recent_packets_ages. cbn. lia.
Qed.

(** [analyze_packet] only emits alerts. *)
Lemma analyze_packet_only_alerts self packet k :
  only_alerts clk self (analyze_packet clk self packet k).1 k
    (analyze_packet clk self packet k).2.
Proof.
  unfold analyze_packet, bind.
  pose proof (detect_port_scan_reads self packet k) as Hk1.
  destruct (detect_port_scan clk self packet k) as [scan k1].
  cbn [snd] in Hk1.
  pose proof (maybe_alert_only_alerts scan self "PORT_SCAN" "HIGH"
                (src_ip packet) ("Port scan detected from " +:+ src_ip packet)
                (8 # 10) k1) as H1.
  match type of H1 with
  | only_alerts _ _ (fst ?m) _ _ => destruct m as [self1 k2]
  end. cbn [fst snd] in H1.
  pose proof (maybe_alert_only_alerts (detect_suspicious_port self1 packet)
                self1 "SUSPICIOUS_PORT" "MEDIUM" (src_ip packet)
                ("Connection to suspicious port "
                 +:+ format_port (dst_port packet)
                 +:+ " from " +:+ src_ip packet) (6 # 10) k2) as H2.
  match type of H2 with
  | only_alerts _ _ (fst ?m) _ _ => destruct m as [self2 k3]
  end. cbn [fst snd] in H2.
  pose proof (detect_ddos_reads self2 packet k3) as Hk4.
  destruct (detect_ddos clk self2 packet k3) as [ddos k4]. cbn [snd] in Hk4.
  pose proof (maybe_alert_only_alerts ddos self2 "DDOS" "CRITICAL"
                (src_ip packet)
                ("Potential DDoS attack from " +:+ src_ip packet)
                (9 # 10) k4) as H3.
  match type of H3 with
  | only_alerts _ _ (fst ?m) _ _ => destruct m as [self3 k5]
  end. cbn [fst snd] in *.
  apply (only_alerts_widen _ _ k k1); [done |].
  eapply only_alerts_trans; [exact H1 |].
  eapply only_alerts_trans; [exact H2 |].
  by apply (only_alerts_widen _ _ k3 k4).
Qed.

Lemma anomaly_loop_only_alerts (rows : list (Z * Q)) self (n i : Z) k :
  only_alerts clk self (anomaly_loop clk self n i rows k).1 k
    (anomaly_loop clk self n i rows k).2.
Proof.
  revert self i k. induction rows as [| [label score] rows IH];
    intros self i k; [apply only_alerts_refl |].
  cbn [anomaly_loop]. destruct (label =? -1); [| apply IH].
  destruct (py_index _ _) as [packet |]; [| apply only_alerts_refl].
  unfold bind.
  pose proof (create_threat_alert_only_alerts self "ANOMALY" "MEDIUM"
                (src_ip packet)
                ("Anomalous network behavior detected from "
                 +:+ src_ip packet) (Qabs score) k) as H1.
  match type of H1 with
  | only_alerts _ _ (fst ?m) _ _ => destruct m as [self1 k1]
  end. cbn [fst snd] in H1.
  eapply only_alerts_trans; [exact H1 | apply IH].
Qed.

(** [ml_analysis] leaves the window and the tracker alone; besides the
    learner's state it only emits alerts. *)
Lemma ml_analysis_emits self k :
  packet_buffer (ml_analysis' self k).1 = packet_buffer self /\
  connection_tracker (ml_analysis' self k).1 = connection_tracker self /\
  emits clk self (ml_analysis' self k).1 k (ml_analysis' self k).2.
Proof.
  unfold ml_analysis.
  destruct (extract_features (packet_buffer self)) as [features |];
    [| split; [done |]; split; [done | apply emits_refl]].
  destruct (len features <? 10);
    [split; [done |]; split; [done | apply emits_refl] |].
  cbn [log_call ml_model].
  destruct (ml_model self) as [m |].
  - match goal with
    | |- context [anomaly_loop clk ?s ?n ?i ?rows k] =>
        destruct (anomaly_loop_only_alerts rows s n i k)
          as (Hb & Ht & _ & _ & Hk & added & reads & Ha & Hs & Hrest)
    end.
    cbn [packet_buffer connection_tracker threat_alerts suspicious_ips]
      in Hb, Ht, Ha, Hs.
    split; [exact Hb |]. split; [exact Ht |]. split; [exact Hk |].
    by exists added, reads.
  - cbn [ret fst snd set_model log_call packet_buffer connection_tracker].
    split; [done |]. split; [done |]. split; [lia |]. exists [], [].
    cbn [threat_alerts suspicious_ips map]. rewrite app_nil_r.
    split; [done |]. split; [set_solver |]. split; [done |].
    split; constructor.
Qed.

(** What a step does to the window and to the tracker. *)
Lemma step_window self (e : Event) k :
  match e with
  | Sniffed packet =>
      match ip_layer packet with
      | Some (src, dst) =>
          exists record,
            timestamp record = clk k /\ src_ip record = src /\
            packet_buffer (step' self e k).1
            = deque_append (packet_buffer self) record /\
            connection_tracker (step' self e k).1
            = <[ src := default 0 (connection_tracker self !! src) + 1 ]>
                (connection_tracker self)
      | None => step' self e k = (self, k)
      end
  | _ =>
      packet_buffer (step' self e k).1 = packet_buffer self /\
      connection_tracker (step' self e k).1 = connection_tracker self
  end.
Proof.
  destruct e as [packet | |]; cbn [step].
  - unfold packet_callback. destruct (ip_layer packet) as [[src dst] |];
      [| done].
    unfold bind, time_time.
    match goal with
    | |- context [analyze_packet clk ?s ?p (S k)] =>
        destruct (analyze_packet_only_alerts s p (S k)) as (Hb & Ht & _);
        exists p
    end.
    rewrite Hb, Ht. cbn [packet_buffer connection_tracker].
    by destruct (layer4 packet).
  - rewrite analysis_cycle_run. destruct (100 <? _); [| done].
    destruct (ml_analysis_emits self k) as (Hb & Ht & _). done.
  - destruct (ml_analysis_emits self k) as (Hb & Ht & _). done.
Qed.

(** Every step only adds alerts at the end of the list, with the sources of
    the new alerts as the only new suspicious addresses. *)
Lemma step_emits self (e : Event) k :
  emits clk self (step' self e k).1 k (step' self e k).2.
Proof.
  destruct e as [packet | |]; cbn [step].
  - unfold packet_callback. destruct (ip_layer packet) as [[src dst] |];
      [| apply emits_refl].
    unfold bind, time_time.
    match goal with
    | |- context [analyze_packet clk ?s ?p (S k)] =>
        destruct (analyze_packet_only_alerts s p (S k))
          as (_ & _ & _ & _ & Hk & added & reads & Ha & Hs & Hrest)
    end.
    cbn [threat_alerts suspicious_ips] in Ha, Hs.
    apply (emits_widen _ _ k (S k)); [lia |].
    split; [exact Hk |]. by exists added, reads.
  - rewrite analysis_cycle_run. destruct (100 <? _); [| apply emits_refl].
    cbn [fst snd]. eapply emits_trans; [apply ml_analysis_emits |].
    apply emits_idle. lia.
  - apply ml_analysis_emits.
Qed.

Lemma run_events_step self (e : Event) (es : list Event) k :
  run_events' self (e :: es) k
  = run_events' (step' self e k).1 es (step' self e k).2.
Proof.
  cbn [run_events]. unfold bind. by destruct (step' self e k).
Qed.

Lemma run_events_emits (es : list Event) self k :
  emits clk self (run_events' self es k).1 k (run_events' self es k).2.
Proof.
  revert self k. induction es as [| e es IH]; intros self k;
    [apply emits_refl |].
  rewrite run_events_step.
  eapply emits_trans; [apply step_emits | apply IH].
Qed.

(** The records that a run appends to the window, one per delivered packet
    with an IP layer, in the order of delivery. *)
Lemma run_events_appends (es : list Event) self k :
  exists records,
    map src_ip records = sniffed_sources es /\
    packet_buffer (run_events' self es k).1
    = fold_left deque_append records (packet_buffer self).
Proof.
  revert self k. induction es as [| e es IH]; intros self k.
  - by exists [].
  - rewrite run_events_step.
    destruct (IH (step' self e k).1 (step' self e k).2)
      as (records & Hsrc & Hbuf).
    pose proof (step_window self e k) as Hstep.
    destruct e as [packet | |]; cbn [sniffed_sources omap list_omap];
      fold (sniffed_sources es).
    + destruct (ip_layer packet) as [[src dst] |]; cbn [fmap option_fmap
        option_map fst].
      * destruct Hstep as (record & _ & Hrsrc & Hwin & _).
        exists (record :: records). cbn [map fold_left].
        rewrite Hrsrc, Hsrc, Hbuf, Hwin. done.
      * rewrite Hstep in Hbuf |- *. by exists records.
    + destruct Hstep as [Hwin _]. rewrite Hwin in Hbuf. by exists records.
    + destruct Hstep as [Hwin _]. rewrite Hwin in Hbuf. by exists records.
Qed.

(** Over any run, the window holds the last [PACKET_BUFFER_SIZE] records
    of what it held followed by the records of the delivered IP packets, in
    the order of delivery; analyses and alerts never touch it, and it never
    exceeds its capacity. *)
Theorem run_events_window (es : list Event) self k :
  (List.length (dq_items (packet_buffer self))
   <= dq_maxlen (packet_buffer self))%nat ->
  let after := run (run_events' self es) k in
  exists records,
    map src_ip records = sniffed_sources es /\
    dq_items (packet_buffer after)
    = drop (List.length (dq_items (packet_buffer self) ++ records)
            - dq_maxlen (packet_buffer self))
           (dq_items (packet_buffer self) ++ records) /\
    dq_maxlen (packet_buffer after) = dq_maxlen (packet_buffer self) /\
    (List.length (dq_items (packet_buffer after))
     <= dq_maxlen (packet_buffer self))%nat.
Proof.
  intros Hlen. cbv zeta. unfold run.
  destruct (run_events_appends es self k) as (records & Hsrc & Hbuf).
  destruct (deque_appends_drop (packet_buffer self) records Hlen)
    as [Hitems Hmax].
  exists records. rewrite Hbuf, Hitems, Hmax.
  split; [done |]. split; [done |]. split; [done |].
  rewrite length_drop. lia.
Qed.

(** The tracker counts, per source address, every delivered packet with an
    IP layer since the start of the run, whatever the window has evicted. *)
Theorem run_events_tracker (es : list Event) self k (ip : string) :
  default 0 (connection_tracker (run (run_events' self es) k) !! ip)
  = default 0 (connection_tracker self !! ip)
    + Z.of_nat (List.length (filter (fun src => src = ip)
                               (sniffed_sources es))).
Proof.
  unfold run. revert self k. induction es as [| e es IH]; intros self k.
  - cbn. lia.
  - rewrite run_events_step, IH.
    pose proof (step_window self e k) as Hstep.
    destruct e as [packet | |]; cbn [sniffed_sources omap list_omap];
      fold (sniffed_sources es).
    + destruct (ip_layer packet) as [[src dst] |]; cbn [fmap option_fmap
        option_map fst].
      * destruct Hstep as (record & _ & _ & _ & Htr). rewrite Htr.
        rewrite filter_cons, lookup_insert.
        destruct (decide (src = ip)) as [-> | Hne];
          cbn [List.length]; unfold default; cbn [from_option id]; lia.
      * by rewrite Hstep.
    + destruct Hstep as [_ Htr]. by rewrite Htr.
    + destruct Hstep as [_ Htr]. by rewrite Htr.
Qed.

(** Alerts are never removed, changed or reordered: a run only adds alerts
    at the end of the list.  The suspicious addresses grow by exactly the
    sources of the new alerts, so when they were the sources of the alerts
    before the run they are the sources of the alerts after it. *)
Theorem run_events_alerts_only_grow (es : list Event) self k :
  let after := run (run_events' self es) k in
  (exists added,
     threat_alerts after = threat_alerts self ++ added /\
     suspicious_ips after
     = list_to_set (map source_ip added) ∪ suspicious_ips self) /\
  (suspicious_ips self = list_to_set (map source_ip (threat_alerts self)) ->
   suspicious_ips after = list_to_set (map source_ip (threat_alerts after))).
Proof.
  cbv zeta. unfold run.
  destruct (run_events_emits es self k)
    as (_ & added & reads & Ha & Hs & _).
  split.
  - by exists added.
  - intros Hinv. rewrite Hs, Ha, Hinv, map_app. set_solver.
Qed.

(** *** Timestamp order *)



Lemma deque_append_in_order (d : Deque) (x : NetworkPacket) (bound : Q) :
  StronglySorted older_or_equal (dq_items d) ->
  Forall (fun p => (timestamp p <= timestamp x)%Q) (dq_items d) ->
  (timestamp x <= bound)%Q ->
  StronglySorted older_or_equal (dq_items (deque_append d x)) /\
  Forall (fun p => (timestamp p <= bound)%Q) (dq_items (deque_append d x)).
Proof.
  intros Hsorted Hold Hx.
  assert (Hall : StronglySorted older_or_equal (dq_items d ++ [x]) /\
                 Forall (fun p => (timestamp p <= bound)%Q)
                   (dq_items d ++ [x])).
  { split.
    - apply StronglySorted_app_2; [| done | repeat constructor].
      intros p q Hp Hq. apply list_elem_of_singleton in Hq as ->.
      rewrite Forall_forall in Hold. by apply Hold.
    - apply Forall_app. split; [| by repeat constructor].
      eapply Forall_impl; [exact Hold |]. intros p Hp. cbn in Hp.
      by eapply Qle_trans. }
  unfold deque_append. cbn [dq_items].
  destruct (dq_maxlen d <? _)%nat; [| exact Hall].
  destruct Hall as [Hs Hf]. destruct (dq_items d ++ [x]) as [| y l];
    [done |]. cbn [tail].
  apply StronglySorted_cons in Hs as [_ Hs].
  apply Forall_cons in Hf as [_ Hf]. done.
Qed.

Lemma step_window_in_order self (e : Event) k :
  monotone clk ->
  StronglySorted older_or_equal (dq_items (packet_buffer self)) ->
  Forall (fun p => (timestamp p <= clk k)%Q) (dq_items (packet_buffer self)) ->
  StronglySorted older_or_equal (dq_items (packet_buffer (step' self e k).1)) /\
  Forall (fun p => (timestamp p <= clk (step' self e k).2)%Q)
    (dq_items (packet_buffer (step' self e k).1)).
Proof.
  intros Hmono Hsorted Hbound.
  destruct (step_emits self e k) as [Hk _].
  pose proof (step_window self e k) as Hstep.
  assert (Hsame : packet_buffer (step' self e k).1 = packet_buffer self ->
            StronglySorted older_or_equal
              (dq_items (packet_buffer (step' self e k).1)) /\
            Forall (fun p => (timestamp p <= clk (step' self e k).2)%Q)
              (dq_items (packet_buffer (step' self e k).1))).
  { intros ->. split; [done |].
    eapply Forall_impl; [exact Hbound |]. intros p Hp. cbn in Hp.
    eapply Qle_trans; [exact Hp |]. by apply Hmono. }
  destruct e as [packet | |].
  - destruct (ip_layer packet) as [[src dst] |].
    + destruct Hstep as (record & Hts & _ & Hwin & _). rewrite Hwin.
      apply deque_append_in_order; [done | by rewrite Hts |].
      rewrite Hts. by apply Hmono.
    + apply Hsame. by rewrite Hstep.
  - apply Hsame, Hstep.
  - apply Hsame, Hstep.
Qed.

Lemma run_events_window_sorted (es : list Event) self k :
  monotone clk ->
  StronglySorted older_or_equal (dq_items (packet_buffer self)) ->
  Forall (fun p => (timestamp p <= clk k)%Q) (dq_items (packet_buffer self)) ->
  StronglySorted older_or_equal
    (dq_items (packet_buffer (run_events' self es k).1)) /\
  Forall (fun p => (timestamp p <= clk (run_events' self es k).2)%Q)
    (dq_items (packet_buffer (run_events' self es k).1)).
Proof.
  intros Hmono. revert self k.
  induction es as [| e es IH]; intros self k Hsorted Hbound; [done |].
  rewrite run_events_step.
  destruct (step_window_in_order self e k Hmono Hsorted Hbound) as [Hs Hf].
  by apply IH.
Qed.

(** With a clock that never goes back, the window stays in timestamp
    order over any run: records are ingested in non-decreasing timestamp
    order, and no record is stamped later than the next clock read. *)
Theorem run_events_window_in_order (es : list Event) self k :
  monotone clk ->
  Sorted older_or_equal (dq_items (packet_buffer self)) ->
  Forall (fun p => (timestamp p <= clk k)%Q) (dq_items (packet_buffer self)) ->
  Sorted older_or_equal (dq_items (packet_buffer (run_events' self es k).1)) /\
  Forall (fun p => (timestamp p <= clk (run_events' self es k).2)%Q)
    (dq_items (packet_buffer (run_events' self es k).1)).
Proof.
  intros Hmono Hsorted Hbound.
  apply Sorted_StronglySorted in Hsorted;
    [| intros a b c; apply older_or_equal_trans].
  destruct (run_events_window_sorted es self k Hmono Hsorted Hbound)
    as [Hs Hf].
  split; [by apply StronglySorted_Sorted | done].
Qed.

(** *** The analysis thread on a small window *)

Lemma deque_append_bounded (d : Deque) (x : NetworkPacket) :
  (List.length (dq_items d) <= dq_maxlen d)%nat ->
  (List.length (dq_items (deque_append d x)) <= dq_maxlen d)%nat.
Proof.
  intros Hlen. rewrite (deque_append_drop d x Hlen), length_drop, length_app.
  cbn [List.length]. lia.
Qed.

(** With [PACKET_BUFFER_SIZE] at most 100 the analysis thread never
    reaches the learner: over any run of packets and wake-ups the model
    stays as it was, the learner is never called, and no ANOMALY alert is
    added. *)
Theorem small_window_never_trains (es : list Event) self k :
  sniff_and_wake es ->
  (List.length (dq_items (packet_buffer self))
   <= dq_maxlen (packet_buffer self))%nat ->
  (dq_maxlen (packet_buffer self) <= 100)%nat ->
  let after := run (run_events' self es) k in
  ml_model after = ml_model self /\
  sk_calls after = sk_calls self /\
  exists added,
    threat_alerts after = threat_alerts self ++ added /\
    Forall (fun a => threat_type a <> "ANOMALY") added.
Proof.
  cbv zeta. unfold run. revert self k.
  induction es as [| e es IH]; intros self k Hes Hlen Hcap.
  - do 2 (split; [done |]). exists []. by rewrite app_nil_r.
  - apply Forall_cons in Hes as [He Hes]. rewrite run_events_step.
    assert (Hstep :
      ml_model (step' self e k).1 = ml_model self /\
      sk_calls (step' self e k).1 = sk_calls self /\
      (List.length (dq_items (packet_buffer (step' self e k).1))
       <= dq_maxlen (packet_buffer (step' self e k).1))%nat /\
      dq_maxlen (packet_buffer (step' self e k).1)
      = dq_maxlen (packet_buffer self) /\
      exists added,
        threat_alerts (step' self e k).1 = threat_alerts self ++ added /\
        Forall (fun a => threat_type a <> "ANOMALY") added).
    { destruct e as [packet | |]; [| | done]; cbn [step].
      - unfold packet_callback.
        destruct (ip_layer packet) as [[src dst] |].
        + unfold bind, time_time.
          match goal with
          | |- context [analyze_packet clk ?s ?p (S k)] =>
              destruct (analyze_packet_unfold clk s p (S k))
                as (Hb & Hm & Hc & Ha)
          end.
          unfold run in Hb, Hm, Hc, Ha. cbv zeta in Ha.
          rewrite Hb, Hm, Hc, Ha.
          cbn [packet_buffer ml_model sk_calls threat_alerts].
          do 2 (split; [done |]).
          split; [rewrite deque_append_maxlen; by apply deque_append_bounded |].
          split; [done |].
          eexists. split; [reflexivity |].
          repeat (apply Forall_app; split);
            match goal with
            | |- Forall _ (if ?b then _ else _) =>
                destruct b; repeat constructor; done
            end.
        + do 4 (split; [done |]). exists []. by rewrite app_nil_r.
      - rewrite analysis_cycle_run.
        destruct (Z.ltb_spec 100 (len (dq_items (packet_buffer self))))
          as [Hbig | _]; [unfold len in Hbig; lia |].
        do 4 (split; [done |]). exists []. by rewrite app_nil_r. }
    destruct Hstep as (Hm & Hc & Hlen' & Hmax & added & Ha & Hkinds).
    destruct (IH (step' self e k).1 (step' self e k).2 Hes Hlen')
      as (Hm' & Hc' & added' & Ha' & Hkinds'); [lia |].
    split; [congruence |]. split; [congruence |].
    exists (added ++ added'). rewrite Ha', Ha, <- app_assoc.
    split; [done |]. by apply Forall_app.
Qed.

End Frame.

(** ** The windowed detectors and the clock *)

Section Windowed.

Context (clk : nat -> Q) {Fitted : Type}.
Implicit Types (self : WiFiIDS Fitted) (packet : NetworkPacket).
Implicit Types (buffer : list NetworkPacket) (k : nat).

Lemma group_of_cons (p : NetworkPacket) buffer (ip : string) :
  group_of (p :: buffer) ip
  = if decide (src_ip p = ip) then p :: group_of buffer ip
    else group_of buffer ip.
Proof. unfold group_of. by rewrite filter_cons. Qed.

Lemma ages_group_of (ip : string) buffer k :
  ages clk ip (group_of buffer ip) k = ages clk ip buffer k.
Proof.
  revert k. induction buffer as [| p rest IH]; intros k; [done |].
  rewrite group_of_cons. cbn [ages].
  destruct (decide (src_ip p = ip)) as [Heq | Hne]; [| apply IH].
  cbn [ages]. rewrite decide_True by done. by rewrite IH.
Qed.

Lemma recent_packets_group_of (w : Q) (ip : string) buffer k :
  recent_packets clk w ip (group_of buffer ip) k
  = recent_packets clk w ip buffer k.
Proof. by rewrite !recent_packets_ages, ages_group_of. Qed.

(** The two windowed detectors look at the records of the input record's
    source only: two windows that hold the same records of that source, in
    the same order, give the same answers and the same number of clock
    reads, whatever other traffic they hold. *)
Theorem detectors_ignore_other_sources self self' packet k :
  group_of (dq_items (packet_buffer self')) (src_ip packet)
  = group_of (dq_items (packet_buffer self)) (src_ip packet) ->
  detect_ddos clk self' packet k = detect_ddos clk self packet k /\
  detect_port_scan clk self' packet k = detect_port_scan clk self packet k.
Proof.
  intros Hgroup. split.
  - unfold detect_ddos, bind.
    rewrite <- (recent_packets_group_of 10 _ (dq_items (packet_buffer self'))).
    rewrite <- (recent_packets_group_of 10 _ (dq_items (packet_buffer self))).
    by rewrite Hgroup.
  - unfold detect_port_scan.
    destruct (negb (truthy (dst_port packet))); [done |]. unfold bind.
    rewrite <- (recent_packets_group_of 60 _ (dq_items (packet_buffer self'))).
    rewrite <- (recent_packets_group_of 60 _ (dq_items (packet_buffer self))).
    by rewrite Hgroup.
Qed.

Lemma younger_than_sublist (w : Q) (ip : string) buffer k :
  younger_than w (ages clk ip buffer k) `sublist_of` group_of buffer ip.
Proof.
  revert k. induction buffer as [| p rest IH]; intros k; [done |].
  rewrite group_of_cons. cbn [ages].
  destruct (decide (src_ip p = ip)) as [Heq | Hne]; [| apply IH].
  rewrite younger_than_cons.
  destruct (decide (clk k - timestamp p < w)%Q).
  - apply sublist_skip, IH.
  - apply sublist_cons, IH.
Qed.

Lemma nonzero_ports_sublist (l1 l2 : list NetworkPacket) :
  l1 `sublist_of` l2 -> nonzero_ports l1 ⊆ nonzero_ports l2.
Proof.
  intros Hsub v. unfold nonzero_ports.
  rewrite !elem_of_list_to_set, !list_elem_of_filter, !list_elem_of_omap.
  intros (Hv & p & Hp & Hport). split; [done |].
  exists p. split; [| done]. by eapply elem_of_sublist.
Qed.

Lemma size_nonzero_ports (l : list NetworkPacket) :
  (size (nonzero_ports l) <= List.length l)%nat.
Proof.
  unfold nonzero_ports.
  induction l as [| p l IH];
    [change (size (∅ : gset Z) <= 0)%nat; by rewrite size_empty |].
  cbn [omap list_omap List.length].
  destruct (dst_port p) as [v |]; [| lia].
  rewrite filter_cons. destruct (decide (v <> 0)); [| lia].
  rewrite list_to_set_cons.
  pose proof (size_union_alt {[ v ]}
                (list_to_set (filter (fun v => v <> 0) (omap dst_port l))
                 : gset Z)) as Hu.
  rewrite size_singleton in Hu.
  pose proof (subseteq_size
                (list_to_set (filter (fun v => v <> 0) (omap dst_port l))
                 ∖ {[ v ]})
                (list_to_set (filter (fun v => v <> 0) (omap dst_port l))
                 : gset Z)) as Hd.
  rewrite Hu. specialize (Hd ltac:(set_solver)). lia.
Qed.

(** Neither windowed detector fires without volume from the source itself:
    a flood alert needs more than 100 records of the input record's source
    in the window, a scan alert needs a present non-zero destination port on
    the input record and more than 20 distinct non-zero destination ports,
    hence more than 20 records, of that source in the window. *)
Theorem detectors_need_volume self packet k :
  let group :=
    group_of (dq_items (packet_buffer self)) (src_ip packet) in
  (run (detect_ddos clk self packet) k = true ->
     (100 < List.length group)%nat) /\
  (run (detect_port_scan clk self packet) k = true ->
     (exists port, dst_port packet = Some port /\ port <> 0) /\
     (20 < size (nonzero_ports group))%nat /\
     (20 < List.length group)%nat).
Proof.
  intros group.
  pose proof (younger_than_sublist 10 (src_ip packet)
                (dq_items (packet_buffer self)) k) as H10.
  pose proof (younger_than_sublist 60 (src_ip packet)
                (dq_items (packet_buffer self)) k) as H60.
  fold group in H10, H60. split.
  - rewrite detect_ddos_count. unfold len. rewrite Z.ltb_lt.
    apply sublist_length in H10. lia.
  - rewrite detect_port_scan_ports.
    intros [Hport Hsize]%andb_true_iff. apply truthy_present in Hport.
    apply Nat.ltb_lt in Hsize.
    apply nonzero_ports_sublist, subseteq_size in H60.
    pose proof (size_nonzero_ports group).
    split; [done |]. split; lia.
Qed.

(** The records that count for a detector, between two clock readings:
    when every reading of the pass lies between [early] and [late], the
    records younger than [w] at [late] all count, and only records younger
    than [w] at [early] count. *)
Lemma younger_than_between (w early late : Q) (ip : string) buffer k :
  (forall j, (k <= j < k + List.length (group_of buffer ip))%nat ->
             (early <= clk j <= late)%Q) ->
  filter (fun p => (late - timestamp p < w)%Q) (group_of buffer ip)
    `sublist_of` younger_than w (ages clk ip buffer k) /\
  younger_than w (ages clk ip buffer k)
    `sublist_of` filter (fun p => (early - timestamp p < w)%Q)
                   (group_of buffer ip).
Proof.
  revert k. induction buffer as [| p rest IH]; intros k Hreads; [done |].
  rewrite group_of_cons in *. cbn [ages].
  destruct (decide (src_ip p = ip)) as [Heq | Hne]; [| by apply IH].
  cbn [List.length] in Hreads.
  destruct (IH (S k)) as [IHlate IHearly].
  { intros j Hj. apply Hreads. lia. }
  destruct (Hreads k ltac:(lia)) as [Hearly Hlate].
  rewrite younger_than_cons, !filter_cons.
  destruct (decide (clk k - timestamp p < w)%Q) as [Hk | Hk].
  - split.
    + destruct (decide (late - timestamp p < w)%Q);
        [by apply sublist_skip | by apply sublist_cons].
    + rewrite decide_True by lra. by apply sublist_skip.
  - split.
    + rewrite decide_False by lra. done.
    + destruct (decide (early - timestamp p < w)%Q);
        [by apply sublist_cons | done].
Qed.

Lemma monotone_reads (k n : nat) :
  monotone clk ->
  forall j, (k <= j < k + n)%nat -> (clk k <= clk j <= clk (k + n))%Q.
Proof. intros Hmono j Hj. split; apply Hmono; lia. Qed.

(** The flood detector against a clock that moves while the window is
    read: if it fires, more than 100 records of the source were younger
    than 10 seconds at the first clock read of the pass; if more than 100
    records of the source are still younger than 10 seconds at the read that
    follows the pass, it fires. *)
Theorem detect_ddos_between_reads self packet k :
  monotone clk ->
  let group :=
    group_of (dq_items (packet_buffer self)) (src_ip packet) in
  (run (detect_ddos clk self packet) k = true ->
     (100 < List.length
              (filter (fun p => (clk k - timestamp p < 10)%Q) group))%nat) /\
  ((100 < List.length
            (filter (fun p => (clk (k + List.length group) - timestamp p
                               < 10)%Q) group))%nat ->
     run (detect_ddos clk self packet) k = true).
Proof.
  intros Hmono group.
  destruct (younger_than_between 10 (clk k) (clk (k + List.length group))
              (src_ip packet) (dq_items (packet_buffer self)) k)
    as [Hlate Hearly]; [by apply monotone_reads |].
  fold group in Hlate, Hearly.
  apply sublist_length in Hlate, Hearly.
  rewrite detect_ddos_count. unfold len. rewrite Z.ltb_lt.
  split; lia.
Qed.

(** The scan detector against a clock that moves while the window is
    read: if it fires, the records of the source that were younger than 60
    seconds at the first clock read of the pass carry more than 20 distinct
    non-zero destination ports; if the input record has a non-zero
    destination port and the records still younger than 60 seconds at the
    read that follows the pass carry more than 20 such ports, it fires. *)
Theorem detect_port_scan_between_reads self packet k :
  monotone clk ->
  let group :=
    group_of (dq_items (packet_buffer self)) (src_ip packet) in
  (run (detect_port_scan clk self packet) k = true ->
     (20 < size (nonzero_ports
                   (filter (fun p => (clk k - timestamp p < 60)%Q)
                      group)))%nat) /\
  ((exists port, dst_port packet = Some port /\ port <> 0) ->
   (20 < size (nonzero_ports
                 (filter (fun p => (clk (k + List.length group) - timestamp p
                                    < 60)%Q) group)))%nat ->
   run (detect_port_scan clk self packet) k = true).
Proof.
  intros Hmono group.
  destruct (younger_than_between 60 (clk k) (clk (k + List.length group))
              (src_ip packet) (dq_items (packet_buffer self)) k)
    as [Hlate Hearly]; [by apply monotone_reads |].
  fold group in Hlate, Hearly.
  apply nonzero_ports_sublist, subseteq_size in Hlate, Hearly.
  rewrite detect_port_scan_ports. split.
  - intros [_ Hsize]%andb_true_iff. apply Nat.ltb_lt in Hsize. lia.
  - intros Hport Hsize. apply truthy_present in Hport. rewrite Hport.
    cbn [andb]. apply Nat.ltb_lt. lia.
Qed.

End Windowed.

Lemma rule_alerts_kinds (b1 b2 b3 : bool) (a1 a2 a3 : ThreatAlert)
    (ip : string) :
  threat_type a1 = "PORT_SCAN" -> threat_type a2 = "SUSPICIOUS_PORT" ->
  threat_type a3 = "DDOS" ->
  source_ip a1 = ip -> source_ip a2 = ip -> source_ip a3 = ip ->
  let added :=
    (if b1 then [a1] else []) ++ (if b2 then [a2] else [])
    ++ (if b3 then [a3] else []) in
  Forall (fun a => source_ip a = ip) added /\
  ((exists a, a ∈ added /\ threat_type a = "SUSPICIOUS_PORT") <-> b2 = true) /\
  (b1 = false -> Forall (fun a => threat_type a <> "PORT_SCAN") added) /\
  (b1 = false -> b2 = false -> Forall (fun a => threat_type a = "DDOS") added).
Proof.
  intros H1 H2 H3 Hs1 Hs2 Hs3 added. subst added.
  split; [| split; [| split]].
  - destruct b1, b2, b3; cbn [app]; repeat constructor; done.
  - split.
    + intros (a & Hin & Hkind).
      destruct b2; [done |]. exfalso.
      destruct b1, b3; cbn [app] in Hin;
        repeat (apply elem_of_cons in Hin as [-> | Hin]; [congruence |]);
        by apply elem_of_nil in Hin.
    + intros ->. exists a2. split; [| done].
      destruct b1, b3; cbn [app]; set_solver.
  - intros ->. destruct b2, b3; cbn [app]; repeat constructor; congruence.
  - intros -> ->. destruct b3; cbn [app]; repeat constructor; done.
Qed.

(** ** Ingestion and the rule detectors together *)

Section Ingestion.

Context (clk : nat -> Q) {Fitted : Type}.
Implicit Types (self : WiFiIDS Fitted) (k : nat).

(** The record that [packet_callback] builds for a packet with an IP
    layer, and the engine on which it runs the detectors. *)
Lemma packet_callback_record self (packet : ScapyPacket) (src dst : string) k :
  ip_layer packet = Some (src, dst) ->
  exists record (ingested : WiFiIDS Fitted),
    src_ip record = src /\
    dst_port record = transport_dport packet /\
    threat_alerts ingested = threat_alerts self /\
    packet_callback clk self packet k
    = analyze_packet clk ingested record (S k).
Proof.
  intros Hip. unfold packet_callback. rewrite Hip. unfold bind, time_time.
  match goal with
  | |- context [analyze_packet clk ?s ?p (S k)] => exists p, s
  end.
  unfold transport_dport. by destruct (layer4 packet).
Qed.

(** Which alerts the ingestion of one packet with an IP layer adds: all of
    them name the packet's source; a SUSPICIOUS_PORT alert is among them
    exactly when the packet is TCP or UDP to one of the sensitive ports; a
    packet without transport port, or to port 0, adds no PORT_SCAN alert;
    a packet that is neither TCP nor UDP can only add a DDOS alert. *)
Theorem packet_callback_alerts self (packet : ScapyPacket)
    (src dst : string) k :
  ip_layer packet = Some (src, dst) ->
  exists added,
    threat_alerts (run (packet_callback clk self packet) k)
    = threat_alerts self ++ added /\
    Forall (fun a => source_ip a = src) added /\
    ((exists a, a ∈ added /\ threat_type a = "SUSPICIOUS_PORT")
       <-> exists port,
             transport_dport packet = Some port /\ port ∈ suspicious_ports) /\
    (transport_dport packet = None \/ transport_dport packet = Some 0 ->
       Forall (fun a => threat_type a <> "PORT_SCAN") added) /\
    (transport_dport packet = None ->
       Forall (fun a => threat_type a = "DDOS") added).
Proof.
  intros Hip.
  destruct (packet_callback_record self packet src dst k Hip)
    as (record & ingested & Hsrc & Hport & Halerts & Hrun).
  unfold run. rewrite Hrun.
  destruct (analyze_packet_unfold clk ingested record (S k))
    as (_ & _ & _ & Ha).
  unfold run in Ha. cbv zeta in Ha. rewrite Ha, Halerts, Hsrc. clear Ha.
  assert (Hscan : dst_port record = None \/ dst_port record = Some 0 ->
            (detect_port_scan clk ingested record (S k)).1 = false).
  { intros Hnone. unfold detect_port_scan.
    by destruct Hnone as [-> | ->]. }
  assert (Hsens : detect_suspicious_port ingested record = true
            <-> exists port, transport_dport packet = Some port /\
                             port ∈ suspicious_ports).
  { unfold detect_suspicious_port. rewrite Hport.
    destruct (transport_dport packet) as [port |].
    - rewrite bool_decide_eq_true. split.
      + intros Hin. by exists port.
      + by intros (port' & [= <-] & Hin).
    - split; [done | by intros (port & ? & _)]. }
  assert (Hnosens : transport_dport packet = None ->
            detect_suspicious_port ingested record = false).
  { intros Hnone. unfold detect_suspicious_port. by rewrite Hport, Hnone. }
  eexists. split; [reflexivity |].
  match goal with
  | |- context [(if ?b1 then [?a1] else []) ++ (if ?b2 then [?a2] else [])
                ++ (if ?b3 then [?a3] else [])] =>
      destruct (rule_alerts_kinds b1 b2 b3 a1 a2 a3 src)
        as (Hall & Hiff & Hno_scan & Hflood); try reflexivity
  end.
  split; [exact Hall |]. split; [by rewrite Hiff |]. split.
  - intros Hnone. rewrite <- Hport in Hnone. by apply Hno_scan, Hscan.
  - intros Hnone. apply Hflood; [| by apply Hnosens].
    apply Hscan. left. by rewrite Hport.
Qed.

End Ingestion.

(** ** Ingestion into a full window *)

Section FullWindow.

Context (clk : nat -> Q) {Fitted : Type}.
Context (scaler_fit_transform : list (list Q) -> list (list Q)).
Context (forest_fit : list (list Q) -> Fitted).
Context (forest_predict : Fitted -> list (list Q) -> list Z).
Context (forest_decision_function : Fitted -> list (list Q) -> list Q).

Abbreviation run_events' :=
  (run_events clk scaler_fit_transform forest_fit forest_predict
     forest_decision_function).

Lemma packet_callback_full_window (self : WiFiIDS Fitted)
    (packet : ScapyPacket) (src dst : string) (k : nat) :
  ip_layer packet = Some (src, dst) ->
  List.length (dq_items (packet_buffer self))
  = dq_maxlen (packet_buffer self) ->
  Sorted older_or_equal (dq_items (packet_buffer self)) ->
  ingest_evicts_oldest clk self packet src k.
Proof.
  intros Hip Hfull Hsorted. unfold ingest_evicts_oldest. cbv zeta.
  destruct (packet_callback_appends clk self packet src dst k Hip)
    as (record & Hts & Hsrc & Hbuf).
  rewrite Hbuf.
  destruct (deque_append_at_capacity (packet_buffer self) record Hfull Hsorted)
    as (Hlen & Hmax & e & Hitems & Holdest & Hhead).
  split; [exact Hlen |]. split; [exact Hmax |].
  exists e, record. do 4 (split; [assumption |]). exact Hhead.
Qed.

(** C2.  Ingestion into a full window.  For every engine whose window
    holds exactly its capacity [C] of records in non-decreasing timestamp
    order, [packet_callback] on a packet with an IP layer leaves the window
    size equal to [C]: the new record, stamped with the clock, goes to the
    right end and exactly one record leaves, which is no younger than any
    record that was present and, for [C > 0], is the left-most of them.  An
    engine made by [__init__] with [PACKET_BUFFER_SIZE = C] keeps the
    capacity [C] and never holds more than [C] records, and while the clock
    never goes back its window is in non-decreasing timestamp order after
    any run, so every ingestion into its full window evicts the oldest
    record. *)
Theorem packet_callback_at_capacity :
  (forall (self : WiFiIDS Fitted) (packet : ScapyPacket) (src dst : string)
          (k : nat),
     ip_layer packet = Some (src, dst) ->
     List.length (dq_items (packet_buffer self))
     = dq_maxlen (packet_buffer self) ->
     Sorted older_or_equal (dq_items (packet_buffer self)) ->
     ingest_evicts_oldest clk self packet src k) /\
  (forall (C : nat) (es : list Event) (k0 : nat),
     monotone clk ->
     let self := (run_events' (init C) es k0).1 in
     let k := (run_events' (init C) es k0).2 in
     dq_maxlen (packet_buffer self) = C /\
     (List.length (dq_items (packet_buffer self)) <= C)%nat /\
     Sorted older_or_equal (dq_items (packet_buffer self)) /\
     forall (packet : ScapyPacket) (src dst : string),
       ip_layer packet = Some (src, dst) ->
       List.length (dq_items (packet_buffer self)) = C ->
       ingest_evicts_oldest clk self packet src k).
Proof.
  split; [apply packet_callback_full_window |].
  intros C es k0 Hmono. cbv zeta.
  destruct (run_events_appends clk scaler_fit_transform forest_fit
              forest_predict forest_decision_function es (init C) k0)
    as (records & _ & Hbuf).
  destruct (deque_appends_drop
              (packet_buffer (init (Fitted := Fitted) C)) records)
    as [Hitems Hmax]; [cbn; lia |].
  cbn [init packet_buffer dq_maxlen dq_items] in Hitems, Hmax, Hbuf.
  destruct (run_events_window_sorted clk scaler_fit_transform forest_fit
              forest_predict forest_decision_function es (init C) k0 Hmono)
    as [Hsorted _]; [constructor | constructor |].
  apply StronglySorted_Sorted in Hsorted.
  assert (HC : dq_maxlen (packet_buffer (run_events' (init C) es k0).1) = C)
    by (rewrite Hbuf; exact Hmax).
  split; [exact HC |]. split.
  - rewrite Hbuf, Hitems, length_drop. cbn [app]. lia.
  - split; [exact Hsorted |].
    intros packet src dst Hip Hfull.
    apply (packet_callback_full_window _ packet src dst); [done | | done].
    by rewrite HC.
Qed.

End FullWindow.

Lemma ticking_clock_monotone : monotone ticking_clock.
Proof.
  intros i j Hij. unfold ticking_clock.
  assert (H : (inject_Z (Z.of_nat i) <= inject_Z (Z.of_nat j))%Q)
    by (rewrite <- Zle_Qle; lia).
  apply Qplus_le_r. unfold Qdiv.
  apply Qmult_le_compat_r; [exact H | vm_compute; discriminate].
Qed.

Lemma packet_callback_at_capacity_witness :
  ingest_evicts_oldest ticking_clock full_engine
    (tcp_sniffed "10.0.0.7" 80) "10.0.0.7" 5%nat /\
  ingest_evicts_oldest ticking_clock
    (sample_run (init 3) three_packets 0%nat).1
    (tcp_sniffed "10.0.0.7" 80) "10.0.0.7"
    (sample_run (init 3) three_packets 0%nat).2.
Proof.
  destruct (packet_callback_at_capacity ticking_clock sample_scaler sample_fit
              sample_predict sample_scores) as [Hany Hinit].
  split.
  - apply (Hany full_engine (tcp_sniffed "10.0.0.7" 80)
             "10.0.0.7" "192.168.1.1" 5%nat).
    + reflexivity.
    + reflexivity.
    + unfold full_engine, full_window, older_or_equal;
        cbn [packet_buffer dq_items].
      repeat constructor; vm_compute; discriminate.
  - destruct (Hinit 3%nat three_packets 0%nat ticking_clock_monotone)
      as (_ & _ & _ & Hfull).
    apply (Hfull (tcp_sniffed "10.0.0.7" 80) "10.0.0.7" "192.168.1.1").
    + reflexivity.
    + vm_compute. reflexivity.
Defined.

(** ** How much traffic feature extraction needs *)

Lemma size_list_to_set_le `{Countable A} (l : list A) :
  (size (list_to_set l : gset A) <= List.length l)%nat.
Proof.
  induction l as [| x l IH];
    [change (size (∅ : gset A) <= 0)%nat; by rewrite size_empty |].
  rewrite list_to_set_cons. cbn [List.length].
  pose proof (size_union_alt {[ x ]} (list_to_set l : gset A)) as Hu.
  rewrite size_singleton in Hu.
  pose proof (subseteq_size (list_to_set l ∖ {[ x ]})
                (list_to_set l : gset A)) as Hd.
  rewrite Hu. specialize (Hd ltac:(set_solver)). lia.
Qed.

Lemma concat_groups_nil (keys : list string) :
  List.length (concat (map (group_of []) keys)) = 0%nat.
Proof. induction keys as [| key keys IH]; [done |]. cbn. exact IH. Qed.

Lemma concat_groups_cons (p : NetworkPacket) (buffer : list NetworkPacket)
    (keys : list string) :
  List.length (concat (map (group_of (p :: buffer)) keys))
  = (List.length (concat (map (group_of buffer) keys))
     + List.length (filter (fun ip => src_ip p = ip) keys))%nat.
Proof.
  induction keys as [| key keys IH]; [done |].
  cbn [map concat]. rewrite !length_app, IH, group_of_cons, filter_cons.
  destruct (decide (src_ip p = key)); cbn [List.length]; lia.
Qed.

Lemma filter_eq_NoDup (x : string) (keys : list string) :
  NoDup keys -> (List.length (filter (fun ip => x = ip) keys) <= 1)%nat.
Proof.
  induction 1 as [| key keys Hkey Hnd IH]; [cbn; lia |].
  rewrite filter_cons.
  destruct (decide (x = key)) as [-> | Hne]; [| exact IH].
  cbn [List.length].
  destruct (filter (fun ip => key = ip) keys) as [| y l] eqn:Hfilter;
    [cbn; lia |].
  exfalso. apply Hkey.
  assert (Hy : y ∈ filter (fun ip => key = ip) keys)
    by (rewrite Hfilter; left).
  apply list_elem_of_filter in Hy as [-> Hy]. done.
Qed.

(** The groups of distinct sources do not hold more records than the
    window. *)
Lemma concat_groups_length (buffer : list NetworkPacket)
    (keys : list string) :
  NoDup keys ->
  (List.length (concat (map (group_of buffer) keys))
   <= List.length buffer)%nat.
Proof.
  intros Hnd. induction buffer as [| p buffer IH].
  - by rewrite concat_groups_nil.
  - rewrite concat_groups_cons. cbn [List.length].
    pose proof (filter_eq_NoDup (src_ip p) keys Hnd). lia.
Qed.

Lemma kept_groups_length (groups : list (list NetworkPacket)) :
  (5 * List.length (filter (fun g => (5 <= List.length g)%nat) groups)
   <= List.length (concat groups))%nat.
Proof.
  induction groups as [| g groups IH]; [done |].
  rewrite filter_cons. cbn [concat]. rewrite length_app.
  destruct (decide (5 <= List.length g)%nat); cbn [List.length]; lia.
Qed.

Lemma qualifying_groups_length (buffer : list NetworkPacket) :
  (5 * List.length (qualifying_groups buffer) <= List.length buffer)%nat.
Proof.
  unfold qualifying_groups.
  pose proof (kept_groups_length (map (group_of buffer) (sources buffer))).
  pose proof (concat_groups_length buffer (sources buffer)
                (NoDup_sources buffer)).
  lia.
Qed.

Lemma Forall2_with_left {A B} (P : A -> Prop) (R : A -> B -> Prop)
    (l : list A) (k : list B) :
  Forall P l -> Forall2 R l k -> Forall2 (fun x y => P x /\ R x y) l k.
Proof.
  intros HP HR. induction HR as [| x y l k Hxy HR IH]; [constructor |].
  apply Forall_cons in HP as [Hx HP]. constructor; [done | by apply IH].
Qed.

Lemma packet_rate_bounds (n : Z) (d : Q) :
  0 < n -> (1 <= d)%Q ->
  (0 < inject_Z n / d)%Q /\ (inject_Z n / d <= inject_Z n)%Q.
Proof.
  intros Hn Hd.
  assert (Hn' : (0 < inject_Z n)%Q) by (rewrite Zlt_Qlt in Hn; exact Hn).
  assert (Hd' : (0 < d)%Q) by (eapply Qlt_le_trans; [| exact Hd]; done).
  split.
  - unfold Qdiv. apply Qmult_lt_0_compat; [done |].
    by apply Qinv_lt_0_compat.
  - apply Qle_shift_div_r; [done |].
    apply (Qle_trans _ (inject_Z n * 1)%Q).
    + rewrite Qmult_1_r. apply Qle_refl.
    + by apply (proj2 (Qmult_le_l 1 d (inject_Z n) Hn')).
Qed.

(** Every feature vector comes from at least 5 records of its own, so the
    window holds at least 5 records per vector.  In a vector, the packet
    rate is positive and at most the group size, the number of distinct
    ports is at most the group size, and the number of distinct protocol
    tags is at least 1 and at most the group size. *)
Theorem extract_features_bounds (buffer : Deque) (features : list (list Q)) :
  extract_features buffer = Some features ->
  5 * len features <= len (dq_items buffer) /\
  Forall2
    (fun (g : list NetworkPacket) (v : list Q) =>
       5 <= len g /\
       exists (rate mean : Q) (ports tags : nat),
         v = [rate; mean; inject_Z (Z.of_nat ports);
              inject_Z (Z.of_nat tags)] /\
         (0 < rate)%Q /\ (rate <= inject_Z (len g))%Q /\
         (ports <= List.length g)%nat /\
         (1 <= tags <= List.length g)%nat)
    (qualifying_groups (dq_items buffer)) features.
Proof.
  intros Hf.
  destruct (extract_features_by_group buffer) as (vs & Hvs & Hall).
  rewrite Hf in Hvs. injection Hvs as <-.
  split.
  - pose proof (qualifying_groups_length (dq_items buffer)) as Hq.
    rewrite (Forall2_length _ _ _ Hall) in Hq. unfold len. lia.
  - assert (Hkept : Forall (fun g => (5 <= List.length g)%nat)
                      (qualifying_groups (dq_items buffer))).
    { apply Forall_forall. intros g Hg. unfold qualifying_groups in Hg.
      by apply list_elem_of_filter in Hg as [Hg _]. }
    eapply Forall2_impl; [exact (Forall2_with_left _ _ _ _ Hkept Hall) |].
    intros g v [Hg (hi & lo & d & _ & _ & _ & _ & Hd & ->)].
    cbn beta in Hg. split; [unfold len; lia |].
    destruct (packet_rate_bounds (len g) d) as [Hpos Hle];
      [unfold len; lia | done |].
    eexists _, _, _, _. split; [reflexivity |].
    split; [exact Hpos |]. split; [exact Hle |].
    split; [apply size_nonzero_ports |].
    unfold protocols.
    pose proof (size_list_to_set_le (map protocol g)) as Hup.
    rewrite length_map in Hup. split; [| exact Hup].
    destruct g as [| p g]; [cbn in Hg; lia |].
    destruct (size (list_to_set (map protocol (p :: g)) : gset string))
      eqn:Hsize; [| lia].
    apply size_empty_inv in Hsize. cbn [map] in Hsize.
    rewrite list_to_set_cons in Hsize. set_solver.
Qed.

Section SmallWindow.

Context (clk : nat -> Q) {Fitted : Type}.
Context (scaler_fit_transform : list (list Q) -> list (list Q)).
Context (forest_fit : list (list Q) -> Fitted).
Context (forest_predict : Fitted -> list (list Q) -> list Z).
Context (forest_decision_function : Fitted -> list (list Q) -> list Q).

(** [ml_analysis] does nothing at all on a window of fewer than 50
    records: ten feature vectors need five records each. *)
Theorem ml_analysis_needs_fifty_records (self : WiFiIDS Fitted) (k : nat) :
  len (dq_items (packet_buffer self)) < 50 ->
  ml_analysis clk scaler_fit_transform forest_fit forest_predict
    forest_decision_function self k = (self, k).
Proof.
  intros Hsmall.
  destruct (extract_features_by_group (packet_buffer self))
    as (features & Hf & Hall).
  apply (ml_analysis_small clk scaler_fit_transform forest_fit forest_predict
           forest_decision_function self k features Hf).
  pose proof (qualifying_groups_length (dq_items (packet_buffer self))) as Hq.
  rewrite (Forall2_length _ _ _ Hall) in Hq. unfold len in *. lia.
Qed.

End SmallWindow.

(** ** Choice of the network interface *)

Lemma first_interface_some (test : string -> bool) (l : list string)
    (x : string) :
  first_interface test l = Some x
  <-> exists before after,
        l = before ++ x :: after /\ test x = true /\
        Forall (fun i => test i = false) before.
Proof.
  induction l as [| y l IH]; cbn [first_interface].
  - split; [done |]. intros (before & after & Hl & _). by destruct before.
  - destruct (test y) eqn:Hy.
    + split.
      * intros [= <-]. by exists [], l.
      * intros (before & after & Hl & Hx & Hbefore).
        destruct before as [| z before]; cbn in Hl.
        -- by injection Hl as <- _.
        -- injection Hl as <- _. apply Forall_cons in Hbefore as [Hz _].
           congruence.
    + rewrite IH. split.
      * intros (before & after & -> & Hx & Hbefore).
        exists (y :: before), after. by repeat constructor.
      * intros (before & after & Hl & Hx & Hbefore).
        destruct before as [| z before]; cbn in Hl.
        -- injection Hl as -> _. congruence.
        -- injection Hl as _ ->. apply Forall_cons in Hbefore as [_ Hbefore].
           by exists before, after.
Qed.

Lemma first_interface_none (test : string -> bool) (l : list string) :
  first_interface test l = None <-> Forall (fun i => test i = false) l.
Proof.
  induction l as [| y l IH]; cbn [first_interface]; [by split |].
  destruct (test y) eqn:Hy.
  - split; [done |]. intros [Hy' _]%Forall_cons. congruence.
  - rewrite IH. split.
    + intros Hl. by constructor.
    + by intros [_ Hl]%Forall_cons.
Qed.

(** [get_network_interface]: a configured interface name that is not empty
    is returned as it is.  Otherwise the answer is the first listed
    interface that passes the wireless test of the platform; when none
    passes, the first listed interface; and ['eth0'] when no interface is
    listed, the only case in which the answer is not a listed interface. *)
Theorem get_network_interface_choice (lower : string -> string)
    (config_interface : option string) (platform_system : string)
    (interfaces : list string) :
  let result :=
    get_network_interface lower config_interface platform_system
      interfaces in
  let wifi :=
    if String.eqb platform_system "Windows" then windows_wifi
    else unix_wifi lower in
  (forall name, config_interface = Some name -> name <> "" -> result = name) /\
  (config_interface = None \/ config_interface = Some "" ->
     (interfaces = [] -> result = "eth0") /\
     (interfaces <> [] -> result ∈ interfaces) /\
     (forall before iface after,
        interfaces = before ++ iface :: after ->
        wifi iface = true ->
        Forall (fun i => wifi i = false) before ->
        result = iface) /\
     (Forall (fun i => wifi i = false) interfaces ->
        head interfaces = Some result \/
        (interfaces = [] /\ result = "eth0"))).
Proof.
  cbv zeta. unfold get_network_interface. split.
  - intros name -> Hname. cbn [str_truthy default].
    by rewrite (proj2 (String.eqb_neq _ _) Hname).
  - intros Hconfig.
    assert (Hfalsy : str_truthy config_interface = false)
      by (by destruct Hconfig as [-> | ->]).
    rewrite Hfalsy.
    set (wifi := if String.eqb platform_system "Windows" then windows_wifi
                 else unix_wifi lower).
    assert (Hfound :
      (if String.eqb platform_system "Windows"
       then first_interface windows_wifi interfaces
       else first_interface (unix_wifi lower) interfaces)
      = first_interface wifi interfaces)
      by (subst wifi; by destruct (String.eqb platform_system "Windows")).
    rewrite Hfound.
    destruct (first_interface wifi interfaces) as [found |] eqn:Hfirst.
    + apply first_interface_some in Hfirst
        as (before0 & after0 & Hl & Hwifi & Hbefore0).
      split; [by intros ->; destruct before0 |].
      split; [intros _; rewrite Hl; set_solver |]. split.
      * intros before iface after Hl' Hw Hbefore.
        assert (Hsome : first_interface wifi interfaces = Some iface)
          by (apply first_interface_some; by exists before, after).
        assert (Hsome' : first_interface wifi interfaces = Some found)
          by (apply first_interface_some; by exists before0, after0).
        congruence.
      * intros Hnone. exfalso. rewrite Hl in Hnone.
        apply Forall_app in Hnone as [_ [Hf _]%Forall_cons]. congruence.
    + apply first_interface_none in Hfirst.
      split; [by intros -> |].
      split; [destruct interfaces; [done | intros _; left] |]. split.
      * intros before iface after Hl Hw _. exfalso. rewrite Hl in Hfirst.
        apply Forall_app in Hfirst as [_ [Hf _]%Forall_cons]. congruence.
      * intros _. destruct interfaces; [by right | by left].
Qed.

(** ** What the engine reports *)


Section Reports.

Context (clk : nat -> Q) {Fitted : Type}.
Context (scaler_fit_transform : list (list Q) -> list (list Q)).
Context (forest_fit : list (list Q) -> Fitted).
Context (forest_predict : Fitted -> list (list Q) -> list Z).
Context (forest_decision_function : Fitted -> list (list Q) -> list Q).

Abbreviation run_events' :=
  (run_events clk scaler_fit_transform forest_fit forest_predict
     forest_decision_function).



End Reports.

(** ** The run-level properties on sample traffic *)


Lemma run_events_window_witness :
  (List.length
     (dq_items (packet_buffer (run (sample_run (init 3) short_run) 0%nat)))
   <= 3)%nat.
Proof.
  destruct (run_events_window ticking_clock sample_scaler sample_fit
              sample_predict sample_scores short_run (init 3) 0%nat)
    as (records & _ & _ & _ & Hlen); [cbn; lia |].
  exact Hlen.
Defined.

Lemma run_events_alerts_only_grow_witness :
  suspicious_ips (run (sample_run (init 3) short_run) 0%nat)
  = list_to_set
      (map source_ip (threat_alerts (run (sample_run (init 3) short_run) 0%nat))).
Proof.
  apply (run_events_alerts_only_grow ticking_clock sample_scaler sample_fit
           sample_predict sample_scores short_run (init 3) 0%nat).
  reflexivity.
Defined.


Lemma run_events_window_in_order_witness :
  Sorted older_or_equal
    (dq_items (packet_buffer (sample_run (init 3) short_run 0%nat).1)).
Proof.
  apply (run_events_window_in_order ticking_clock sample_scaler sample_fit
           sample_predict sample_scores short_run (init 3) 0%nat).
  - exact ticking_clock_monotone.
  - constructor.
  - constructor.
Defined.

Lemma small_window_never_trains_witness :
  ml_model (run (sample_run (init 100) short_run) 0%nat) = None /\
  sk_calls (run (sample_run (init 100) short_run) 0%nat) = [].
Proof.
  destruct (small_window_never_trains ticking_clock sample_scaler sample_fit
              sample_predict sample_scores short_run (init 100) 0%nat)
    as (Hmodel & Hcalls & _).
  - unfold sniff_and_wake, short_run. repeat constructor; discriminate.
  - cbn. lia.
  - cbn. lia.
  - split; [exact Hmodel | exact Hcalls].
Defined.

Lemma detectors_ignore_other_sources_witness :
  detect_ddos ticking_clock
    (engine (ping 0 "10.0.0.9" :: burst 25 scanner 101) None)
    (window_packet 25 scanner 101) 0%nat
  = detect_ddos ticking_clock (engine (burst 25 scanner 101) None)
      (window_packet 25 scanner 101) 0%nat.
Proof.
  apply (detectors_ignore_other_sources ticking_clock
           (engine (burst 25 scanner 101) None)
           (engine (ping 0 "10.0.0.9" :: burst 25 scanner 101) None)
           (window_packet 25 scanner 101) 0%nat).
  vm_compute. reflexivity.
Defined.

Lemma detectors_need_volume_witness :
  (100 < List.length (group_of (burst 25 scanner 101) scanner))%nat.
Proof.
  apply (detectors_need_volume ticking_clock
           (engine (burst 25 scanner 101) None)
           (window_packet 25 scanner 101) 0%nat).
  vm_compute. reflexivity.
Defined.

Lemma detect_ddos_between_reads_witness :
  run (detect_ddos ticking_clock (engine (burst 25 scanner 101) None)
         (window_packet 25 scanner 101)) 0%nat = true.
Proof.
  apply (detect_ddos_between_reads ticking_clock
           (engine (burst 25 scanner 101) None)
           (window_packet 25 scanner 101) 0%nat ticking_clock_monotone).
  apply Nat.ltb_lt. vm_compute. reflexivity.
Defined.

Lemma detect_port_scan_between_reads_witness :
  run (detect_port_scan ticking_clock (engine (burst 0 scanner 21) None)
         (window_packet 0 scanner 21)) 0%nat = true.
Proof.
  apply (detect_port_scan_between_reads ticking_clock
           (engine (burst 0 scanner 21) None)
           (window_packet 0 scanner 21) 0%nat ticking_clock_monotone).
  - exists 21. split; [reflexivity | lia].
  - apply Nat.ltb_lt. vm_compute. reflexivity.
Defined.

Lemma packet_callback_alerts_witness :
  exists a,
    a ∈ threat_alerts
          (run (packet_callback ticking_clock (engine [] None)
                  (tcp_sniffed scanner 3389)) 0%nat) /\
    threat_type a = "SUSPICIOUS_PORT".
Proof.
  destruct (packet_callback_alerts ticking_clock (engine [] None)
              (tcp_sniffed scanner 3389) scanner "192.168.1.1" 0%nat)
    as (added & Halerts & _ & Hiff & _); [reflexivity |].
  destruct (proj2 Hiff) as (a & Hin & Hkind).
  - exists 3389. split; [reflexivity |]. vm_compute. reflexivity.
  - exists a. split; [| exact Hkind].
    rewrite Halerts. apply elem_of_app. by right.
Defined.

Lemma ml_analysis_scored_alerts_witness :
  exists added,
    threat_alerts
      (run (ml_analysis ticking_clock sample_scaler sample_fit
              sample_predict sample_scores
              (engine ten_sources_window (Some []))) 0%nat)
    = added /\
    List.length added = 1%nat.
Proof.
  edestruct (ml_analysis_scored_alerts ticking_clock sample_scaler sample_fit
               sample_predict sample_scores
               (engine ten_sources_window (Some [])) 0%nat)
    as (added & Halerts & Hall).
  - vm_compute. reflexivity.
  - vm_compute. discriminate.
  - reflexivity.
  - vm_compute. discriminate.
  - exists added. split; [exact Halerts |].
    apply Forall2_length in Hall. rewrite <- Hall. vm_compute. reflexivity.
Defined.

Lemma extract_features_bounds_witness :
  exists features,
    extract_features (packet_buffer (engine ten_sources_window None))
    = Some features /\
    5 * len features <= len ten_sources_window.
Proof.
  eexists. split; [vm_compute; reflexivity |].
  eapply (extract_features_bounds
            (packet_buffer (engine ten_sources_window None))).
  vm_compute. reflexivity.
Defined.

Lemma ml_analysis_needs_fifty_records_witness :
  ml_analysis ticking_clock sample_scaler sample_fit sample_predict
    sample_scores (engine (burst 25 scanner 49) None) 0%nat
  = (engine (burst 25 scanner 49) None, 0%nat).
Proof.
  apply (ml_analysis_needs_fifty_records ticking_clock sample_scaler
           sample_fit sample_predict sample_scores
           (engine (burst 25 scanner 49) None) 0%nat).
  vm_compute. reflexivity.
Defined.

Lemma get_network_interface_choice_witness :
  get_network_interface (fun s => s) (Some "") "Linux"
    ["lo"; "eth0"; "wlan0"; "wlan1"] = "wlan0" /\
  get_network_interface (fun s => s) None "Windows" [] = "eth0" /\
  get_network_interface (fun s => s) (Some "Wi-Fi 6") "Windows" ["lo"]
  = "Wi-Fi 6".
Proof.
  split; [| split].
  - destruct (get_network_interface_choice (fun s => s) (Some "") "Linux"
                ["lo"; "eth0"; "wlan0"; "wlan1"]) as [_ Hsearch].
    destruct Hsearch as (_ & _ & Hfirst & _); [by right |].
    apply (Hfirst ["lo"; "eth0"] "wlan0" ["wlan1"]).
    + reflexivity.
    + reflexivity.
    + repeat constructor.
  - destruct (get_network_interface_choice (fun s => s) None "Windows" [])
      as [_ Hsearch].
    destruct Hsearch as (Hempty & _); [by left |].
    by apply Hempty.
  - apply (get_network_interface_choice (fun s => s) (Some "Wi-Fi 6")
             "Windows" ["lo"]); [reflexivity | discriminate].
Defined.

